(** * salt/modules/yumpkg5.py: the YUM package adapter

    A shallow embedding of the module and the properties of its
    parser, repo-option composer, differ loops and install orchestration.

    Conventions of the embedding
    - Python [str] is [string]; a [dict] is a [gmap]: the keys are unique by
      construction and the iteration order of a dict is the order of
      [map_to_list], an order fixed by the contents of the dict (Python 2
      promises no more than that).
    - The loosely typed values the module passes around (option values,
      versions, flags) are values of [pyval].
    - The host is explicit state: every function that runs a command or logs
      is a computation in the monad [State], which threads the outside world
      and records the commands and log records in order. *)

From Stdlib Require Import Ascii.
From stdpp Require Import base option list strings gmap fin_maps.

(** ** Python values *)

Inductive pyval : Type :=
| PyNone
| PyBool (b : bool)
| PyStr (s : string)
| PyList (l : list string).

Global Instance pyval_eq_dec : EqDecision pyval.
Proof. solve_decision. Defined.

(** Truth value of an object, as [if x:] and [not x] test it. *)
Definition truthy (v : pyval) : bool :=
  match v with
  | PyNone => false
  | PyBool b => b
  | PyStr s => negb (String.eqb s EmptyString)
  | PyList l => match l with [] => false | _ => true end
  end.

(** The double quote character, and [s] between double quotes. *)
Definition dquote : string := String (ascii_of_nat 34) EmptyString.
Definition quoted (s : string) : string := dquote +:+ s +:+ dquote.

(** ** Python string methods used by the module *)

Module Py.

Definition LF : ascii := ascii_of_nat 10.
Definition CR : ascii := ascii_of_nat 13.

(** [sep.join(l)] *)
Definition join (sep : string) (l : list string) : string :=
  String.concat sep l.

(** [s.startswith(p)] *)
Definition startswith (p s : string) : bool := String.prefix p s.

(** [s.endswith(p)] *)
Definition endswith (p s : string) : bool :=
  String.prefix (String.rev p) (String.rev s).

(** [s[:-n]] *)
Definition drop_last (n : nat) (s : string) : string :=
  String.substring 0 (String.length s - n) s.

(** [s[n:]] *)
Fixpoint drop_first (n : nat) (s : string) : string :=
  match n, s with
  | S n', String _ s' => drop_first n' s'
  | _, _ => s
  end.

(** [s.splitlines()] of a byte string: a line ends at LF, CR or CR LF;
    the line ends are dropped and there is no empty last line. [cur] is
    the current line, reversed. *)
Fixpoint splitlines_go (cur : string) (s : string) : list string :=
  match s with
  | EmptyString =>
      match cur with EmptyString => [] | _ => [String.rev cur] end
  | String c s' =>
      if Ascii.eqb c CR then
        match s' with
        | String c' s'' =>
            if Ascii.eqb c' LF
            then String.rev cur :: splitlines_go EmptyString s''
            else String.rev cur :: splitlines_go EmptyString s'
        | EmptyString => [String.rev cur]
        end
      else if Ascii.eqb c LF then
        String.rev cur :: splitlines_go EmptyString s'
      else splitlines_go (String c cur) s'
  end.
Definition splitlines (s : string) : list string :=
  splitlines_go EmptyString s.

(** [s.split()]: the maximal runs of non-blank characters. *)
Definition split (s : string) : list string := String.words s.

(** [s.split(sep)] for a non-empty [sep]: [skip] counts the characters of
    a separator just matched that are still to pass over; [cur] is the
    current field, reversed. *)
Fixpoint split_sep_go (sep : string) (skip : nat) (cur : string)
    (s : string) : list string :=
  match s with
  | EmptyString => [String.rev cur]
  | String c s' =>
      match skip with
      | S k => split_sep_go sep k cur s'
      | O =>
          if String.prefix sep s
          then String.rev cur ::
               split_sep_go sep (String.length sep - 1) EmptyString s'
          else split_sep_go sep O (String c cur) s'
      end
  end.
Definition split_sep (sep s : string) : list string :=
  split_sep_go sep O EmptyString s.

(** The last occurrence of a non-empty [sep] in [s]: what is before it
    and what is after it. *)
Fixpoint rfind_split (sep s : string) : option (string * string) :=
  match s with
  | EmptyString => None
  | String c s' =>
      match rfind_split sep s' with
      | Some (h, t) => Some (String c h, t)
      | None =>
          if String.prefix sep s
          then Some (EmptyString, drop_first (String.length sep) s)
          else None
      end
  end.

(** [s.rpartition(sep)]: a triple, [('', '', s)] when [sep] is not in
    [s]. *)
Definition rpartition (sep s : string) : string * string * string :=
  match rfind_split sep s with
  | Some (h, t) => (h, sep, t)
  | None => (EmptyString, EmptyString, s)
  end.

(** Does the character [c] occur in [s]? *)
Fixpoint has_char (c : ascii) (s : string) : bool :=
  match s with
  | EmptyString => false
  | String c' s' => Ascii.eqb c c' || has_char c s'
  end.

End Py.

(** ** The host: commands and log records *)

Inductive level : Type := Info | Warning.

Inductive event : Type :=
| Run (cmd : string)                 (* a command handed to the executor *)
| Log (lvl : level) (msg : string).  (* a record sent to the module logger *)

Global Instance level_eq_dec : EqDecision level.
Proof. solve_decision. Defined.
Global Instance event_eq_dec : EqDecision event.
Proof. solve_decision. Defined.

(** One line of tool output, the namedtuple [YumOut]. *)
Module YumOut.
Record t : Type := yum_out { name : string; version : string; status : string }.
End YumOut.

(** An entry of a change set, [{'old': ..., 'new': ...}]. *)
Module Change.
Record t : Type := mk { old : pyval; new : pyval }.
End Change.

(** What [pkg_resource.parse_targets] hands back: nothing, the targets of
    a software repository ([pkg_type == 'repository'], a dict from name to
    version or None), or package files (another [pkg_type], a list). *)
Inductive targets : Type :=
| NoTargets
| Repository (pkg_params : gmap string pyval)
| Files (pkg_params : list string).

(** [pkg_params] inside [install]: a dict or a list. *)
Inductive params : Type :=
| PDict (d : gmap string pyval)
| PList (l : list string).

(** The result of [latest_version]: a string or a dict. *)
Inductive latest : Type :=
| LStr (s : string)
| LDict (d : gmap string string).


(** ** The loader context

    The module reaches the rest of the program through the names the loader
    puts in its globals: the functions of [__salt__], the facts of
    [__grains__]. They are the fields of [loader], over the type [W] of the
    outside world and the types of the [pkgs] and [sources] arguments, which
    the module only hands on. *)

Record loader (W pkgs_t sources_t : Type) : Type := Loader {
  (** [__salt__['cmd.run_stdout']], [__salt__['cmd.run']],
      [__salt__['cmd.retcode']], [__salt__['cmd.run_all']]: the command
      executors *)
  cmd_run_stdout : string -> W -> string * W;
  cmd_run : string -> W -> string * W;
  cmd_retcode : string -> W -> Z * W;
  cmd_run_all : string -> W -> W;
  (** [__salt__['config.is_true']] *)
  config_is_true : pyval -> bool;
  (** [__salt__['pkg_resource.add_pkg']], [sort_pkglist], [stringify]:
      the updates of the dict of installed packages *)
  pkg_resource_add_pkg :
    gmap string (list string) -> string -> string -> gmap string (list string);
  pkg_resource_sort_pkglist :
    gmap string (list string) -> gmap string (list string);
  pkg_resource_stringify :
    gmap string (list string) -> gmap string string;
  (** [__salt__['pkg_resource.parse_targets']] *)
  pkg_resource_parse_targets :
    string -> option pkgs_t -> option sources_t -> W -> targets * W;
  (** [__salt__['pkg_resource.find_changes']] *)
  pkg_resource_find_changes :
    gmap string pyval -> gmap string pyval -> gmap string Change.t;
  (** [__salt__['pkg_resource.perform_cmp']],
      [__salt__['pkg_resource.compare']]: the version comparator *)
  pkg_resource_perform_cmp : pyval -> pyval -> option comparison;
  pkg_resource_compare : pyval -> string -> pyval -> bool;
  (** [__grains__], the facts about the machine *)
  grains : gmap string string;
  (** [repr] of a string, which [str] of a list goes through *)
  py_repr : string -> string
}.

Arguments Loader {W pkgs_t sources_t}.
Arguments cmd_run_stdout {W pkgs_t sources_t}.
Arguments cmd_run {W pkgs_t sources_t}.
Arguments cmd_retcode {W pkgs_t sources_t}.
Arguments cmd_run_all {W pkgs_t sources_t}.
Arguments config_is_true {W pkgs_t sources_t}.
Arguments pkg_resource_add_pkg {W pkgs_t sources_t}.
Arguments pkg_resource_sort_pkglist {W pkgs_t sources_t}.
Arguments pkg_resource_stringify {W pkgs_t sources_t}.
Arguments pkg_resource_parse_targets {W pkgs_t sources_t}.
Arguments pkg_resource_find_changes {W pkgs_t sources_t}.
Arguments pkg_resource_perform_cmp {W pkgs_t sources_t}.
Arguments pkg_resource_compare {W pkgs_t sources_t}.
Arguments grains {W pkgs_t sources_t}.
Arguments py_repr {W pkgs_t sources_t}.

(** The host: the world and what the module has done to it so far. *)
Record host (W : Type) : Type := Host { world : W; trace : list event }.
Arguments Host {W}.
Arguments world {W}.
Arguments trace {W}.

(** Computations that act on the host. *)
Definition State (W A : Type) : Type := host W -> A * host W.

Global Instance State_ret {W} : MRet (State W) := fun A (a : A) h => (a, h).
Global Instance State_bind {W} : MBind (State W) :=
  fun A B (f : A -> State W B) (m : State W A) h =>
    let '(a, h') := m h in f a h'.

(** ** The module *)

Section Yumpkg5.

Context {W pkgs_t sources_t : Type}.
Variable L : loader W pkgs_t sources_t.

#[local] Abbreviation State := (State W).

(** [str(v)], what [format] puts in the place of [{0}]. *)
Definition pystr (v : pyval) : string :=
  match v with
  | PyNone => "None"
  | PyBool true => "True"
  | PyBool false => "False"
  | PyStr s => s
  | PyList l => "[" +:+ Py.join ", " (L.(py_repr) <$> l) +:+ "]"
  end.

(** *** Effects *)

Definition run_stdout (cmd : string) : State string := fun h =>
  let '(out, w) := L.(cmd_run_stdout) cmd (world h) in
  (out, Host w (trace h ++ [Run cmd])).

Definition run (cmd : string) : State string := fun h =>
  let '(out, w) := L.(cmd_run) cmd (world h) in
  (out, Host w (trace h ++ [Run cmd])).

Definition retcode (cmd : string) : State Z := fun h =>
  let '(rc, w) := L.(cmd_retcode) cmd (world h) in
  (rc, Host w (trace h ++ [Run cmd])).

Definition run_all (cmd : string) : State unit := fun h =>
  (tt, Host (L.(cmd_run_all) cmd (world h)) (trace h ++ [Run cmd])).

Definition log (lvl : level) (msg : string) : State unit := fun h =>
  (tt, Host (world h) (trace h ++ [Log lvl msg])).

Definition parse_targets (name : string) (pkgs : option pkgs_t)
    (sources : option sources_t) : State targets := fun h =>
  let '(r, w) := L.(pkg_resource_parse_targets) name pkgs sources (world h) in
  (r, Host w (trace h)).

(** [if c: m] *)
Definition when (c : bool) (m : State unit) : State unit :=
  if c then m else mret tt.

(** [d.get(k, default)] *)
Definition dict_get {V : Type} (d : gmap string V) (k : string) (dflt : V) : V :=
  default dflt (d !! k).

(** The keys of a dict, in the order a [for] loop meets them. *)
Definition dict_keys {V : Type} (d : gmap string V) : list string :=
  (map_to_list d).*1.

(** *** _parse_yum *)

(** The loop of [_parse_yum] over the lines of the output. *)
Definition parse_lines (out : string) : list YumOut.t :=
  foldl (fun results line =>
           if negb (Py.startswith "Loaded plugin" line) then
             match Py.split line with
             | [namearchstr; pkgver; pkgstatus] =>
                 let pkgname := (Py.rpartition "." namearchstr).1.1 in
                 results ++ [YumOut.yum_out pkgname pkgver pkgstatus]
             | _ => results
             end
           else results)
        [] (Py.splitlines out).

Definition _parse_yum (arg : string) : State (list YumOut.t) :=
  let cmd := "yum -q " +:+ arg in
  out ← run_stdout cmd;
  mret (parse_lines out).

(** *** _list_removed *)

Definition _list_removed {V : Type} (old new : gmap string V) : list string :=
  foldl (fun pkgs pkg =>
           if bool_decide (new !! pkg = None) then pkgs ++ [pkg] else pkgs)
        [] (dict_keys old).

(** *** _get_repo_options *)

Definition _get_repo_options (kwargs : gmap string pyval) : State string :=
  let fromrepo := dict_get kwargs "fromrepo" (PyStr EmptyString) in
  let repo := dict_get kwargs "repo" (PyStr EmptyString) in
  let disablerepo := dict_get kwargs "disablerepo" (PyStr EmptyString) in
  let enablerepo := dict_get kwargs "enablerepo" (PyStr EmptyString) in
  let fromrepo :=
    if truthy repo && negb (truthy fromrepo) then repo else fromrepo in
  if truthy fromrepo then
    _ ← log Info ("Restricting to repo " +:+ quoted (pystr fromrepo));
    mret ("--disablerepo=" +:+ quoted "*" +:+
          " --enablerepo=" +:+ quoted (pystr fromrepo))
  else
    let repo_arg := EmptyString in
    repo_arg ←
      (if truthy disablerepo then
         _ ← log Info ("Disabling repo " +:+ quoted (pystr disablerepo));
         mret (repo_arg +:+
               ("--disablerepo=" +:+ quoted (pystr disablerepo) +:+ " "))
       else mret repo_arg);
    repo_arg ←
      (if truthy enablerepo then
         _ ← log Info ("Enabling repo " +:+ quoted (pystr enablerepo));
         mret (repo_arg +:+
               ("--enablerepo=" +:+ quoted (pystr enablerepo) +:+ " "))
       else mret repo_arg);
    mret repo_arg.

(** *** latest_version, upgrade_available *)

(** [ret[names[0]]]; the key is in [ret] since the first loop put it
    there. *)
Definition first_entry (ret : gmap string string) (names : list string) : string :=
  match names with
  | n :: _ => dict_get ret n EmptyString
  | [] => EmptyString
  end.

Definition latest_version (names : list string) (kwargs : gmap string pyval)
    : State latest :=
  if bool_decide (length names = 0) then mret (LStr EmptyString)
  else
    let ret := foldl (fun ret name => <[name := EmptyString]> ret) ∅ names in
    repo_arg ← _get_repo_options kwargs;
    updates ← _parse_yum (repo_arg +:+ " list available " +:+
                          Py.join " " names);
    let ret :=
      foldl (fun ret pkg => <[YumOut.name pkg := YumOut.version pkg]> ret)
            ret updates in
    if bool_decide (length names = 1)
    then mret (LStr (first_entry ret names))
    else mret (LDict ret).

Definition available_version := latest_version.

(** [r != ''] *)
Definition latest_nonempty (r : latest) : bool :=
  match r with
  | LStr s => negb (String.eqb s EmptyString)
  | LDict _ => true
  end.

Definition upgrade_available (name : string) : State bool :=
  r ← latest_version [name] ∅;
  mret (latest_nonempty r).

(** *** list_pkgs *)

Definition rpm_query : string :=
  "rpm -qa --queryformat " +:+
  quoted ("%{NAME}_|-%{VERSION}_|-%{RELEASE}_|-%{ARCH}" +:+
          String Py.LF EmptyString).

Definition cpuarch : string := dict_get L.(grains) "cpuarch" EmptyString.

Definition list_pkgs (versions_as_list : pyval) : State (gmap string pyval) :=
  let versions_as_list := L.(config_is_true) versions_as_list in
  out ← run rpm_query;
  let ret :=
    foldl (fun ret line =>
             match Py.split_sep "_|-" line with
             | [name; version; rel; arch] =>
                 let name :=
                   if String.eqb cpuarch "x86_64" && String.eqb arch "i686"
                   then name +:+ ".i686" else name in
                 let pkgver :=
                   if negb (String.eqb rel EmptyString)
                   then version +:+ "-" +:+ rel else version in
                 L.(pkg_resource_add_pkg) ret name pkgver
             | _ => ret
             end)
          ∅ (Py.splitlines out) in
  let ret := L.(pkg_resource_sort_pkglist) ret in
  if negb versions_as_list
  then mret (PyStr <$> L.(pkg_resource_stringify) ret)
  else mret (PyList <$> ret).

(** *** refresh_db, list_upgrades *)

Definition refresh_db : State bool :=
  _ ← retcode "yum -q clean dbcache";
  mret true.

(** [dict(l)] of a list of pairs: a later pair wins. *)
Definition dict_of_pairs {V : Type} (l : list (string * V)) : gmap string V :=
  foldl (fun d kv => <[kv.1 := kv.2]> d) ∅ l.

Definition list_upgrades (refresh : pyval) : State (gmap string string) :=
  _ ← (if L.(config_is_true) refresh then refresh_db else mret true);
  out ← _parse_yum "check-update";
  mret (dict_of_pairs ((fun i => (YumOut.name i, YumOut.version i)) <$> out)).

(** *** perform_cmp, compare *)

Definition perform_cmp (pkg1 pkg2 : pyval) : option comparison :=
  L.(pkg_resource_perform_cmp) pkg1 pkg2.

Definition compare (pkg1 : pyval) (oper : string) (pkg2 : pyval) : bool :=
  L.(pkg_resource_compare) pkg1 oper pkg2.

(** *** install *)

(** The pair [pkg_params, pkg_type] that [parse_targets] returns;
    [None] stands for [(None, None)]. *)
Definition unpack (r : targets) : option (params * string) :=
  match r with
  | NoTargets => None
  | Repository d => Some (PDict d, "repository")
  | Files l => Some (PList l, "file")
  end.

(** [len(pkg_params)] *)
Definition params_len (p : params) : nat :=
  match p with PDict d => size d | PList l => length l end.

(** What a loop over [pkg_params] meets, as [' '.join] does. *)
Definition params_names (p : params) : list string :=
  match p with PDict d => dict_keys d | PList l => l end.

(** [pkg_params.iteritems()]; a list has no such method and the call
    raises AttributeError, which is [None] here. *)
Definition iteritems (p : params) : option (list (string * pyval)) :=
  match p with PDict d => Some (map_to_list d) | PList _ => None end.

(** Lines 307-314: the [version] option. *)
Definition install_version (name : string) (pkgs : option pkgs_t)
    (sources : option sources_t) (kwargs : gmap string pyval)
    (pkg_params : params) : State params :=
  let version := dict_get kwargs "version" PyNone in
  if truthy version then
    match pkgs, sources with
    | None, None => mret (PDict {[name := version]})
    | _, _ =>
        _ ← log Warning (quoted "version" +:+
              " parameter will be ignored for muliple package targets");
        mret pkg_params
    end
  else mret pkg_params.

(** Lines 327-334: the spec of a target with a version, [pkgstr]. *)
Definition pkgstr (pkgname : string) (version : pyval) : string :=
  let '(pkgname, arch) :=
    if String.eqb cpuarch "x86_64" && Py.endswith ".i686" pkgname
    then (Py.drop_last 5 pkgname, ".i686")
    else (pkgname, EmptyString) in
  quoted (pkgname +:+ "-" +:+ pystr version +:+ arch).

(** Lines 323-340: the body of the loop over the targets of a
    repository; [acc] is the pair of [targets] and [downgrade]. *)
Definition install_target (old : gmap string pyval)
    (acc : list string * list string) (item : string * pyval)
    : list string * list string :=
  let '(targets, downgrade) := acc in
  let '(pkgname, version) := item in
  match version with
  | PyNone => (targets ++ [pkgname], downgrade)
  | _ =>
      let cver := dict_get old pkgname (PyStr EmptyString) in
      let pkgstr := pkgstr pkgname version in
      if negb (truthy cver) || compare version ">=" cver
      then (targets ++ [pkgstr], downgrade)
      else (targets, downgrade ++ [pkgstr])
  end.

(** Lines 319-342: the two buckets, [targets] and [downgrade]. *)
Definition install_buckets (old : gmap string pyval) (pkg_type : string)
    (pkg_params : params) : option (list string * list string) :=
  if String.eqb pkg_type "repository" then
    items ← iteritems pkg_params;
    Some (foldl (install_target old) ([], []) items)
  else Some (params_names pkg_params, []).

(** The command line of one bucket. *)
Definition yum_command (repo_arg : string) (skip_verify : pyval)
    (verb : string) (pkg : list string) : string :=
  "yum -y " +:+ repo_arg +:+ " " +:+
  (if truthy skip_verify then "--nogpgcheck" else EmptyString) +:+
  " " +:+ verb +:+ " " +:+ Py.join " " pkg.

(** Lines 344-358: the two invocations. *)
Definition install_run (repo_arg : string) (skip_verify : pyval)
    (targets downgrade : list string) : State unit :=
  _ ← when (bool_decide (targets ≠ []))
        (run_all (yum_command repo_arg skip_verify "install" targets));
  when (bool_decide (downgrade ≠ []))
       (run_all (yum_command repo_arg skip_verify "downgrade" downgrade)).

(** Lines 316-361: what [install] does with the targets it has settled
    on; the result is [None] when the call raises. *)
Definition install_rest (pkg_type : string) (fromrepo : pyval)
    (skip_verify : pyval) (kwargs : gmap string pyval) (pkg_params : params)
    : State (option (gmap string Change.t)) :=
  repo_arg ← _get_repo_options (<["fromrepo" := fromrepo]> kwargs);
  old ← list_pkgs (PyBool false);
  match install_buckets old pkg_type pkg_params with
  | None => mret None
  | Some (targets, downgrade) =>
      _ ← install_run repo_arg skip_verify targets downgrade;
      new ← list_pkgs (PyBool false);
      mret (Some (L.(pkg_resource_find_changes) old new))
  end.

(** [install]. [name=None], the default, is the empty name: both are
    false, and [parse_targets] is the only reader of a name that is
    false. *)
Definition install (name : string) (refresh : pyval) (fromrepo : pyval)
    (skip_verify : pyval) (pkgs : option pkgs_t)
    (sources : option sources_t) (kwargs : gmap string pyval)
    : State (option (gmap string Change.t)) :=
  _ ← (if L.(config_is_true) refresh then refresh_db else mret true);
  r ← parse_targets name pkgs sources;
  match unpack r with
  | None => mret (Some ∅)
  | Some (pkg_params, pkg_type) =>
      if bool_decide (params_len pkg_params = 0) then mret (Some ∅)
      else
        pkg_params ← install_version name pkgs sources kwargs pkg_params;
        install_rest pkg_type fromrepo skip_verify kwargs pkg_params
  end.

(** *** upgrade *)

(** Lines 383-397: the loop over the packages of [new]; an item of
    [new] is [npkg] with [new[npkg]]. *)
Definition upgrade_changes (old new : gmap string pyval)
    : gmap string Change.t :=
  foldl (fun pkgs item =>
           let '(npkg, new_npkg) := item in
           match old !! npkg with
           | Some old_npkg =>
               if bool_decide (old_npkg = new_npkg) then pkgs
               else <[npkg := Change.mk old_npkg new_npkg]> pkgs
           | None =>
               <[npkg := Change.mk (PyStr EmptyString) new_npkg]> pkgs
           end)
        ∅ (map_to_list new).

Definition upgrade (refresh : pyval) : State (gmap string Change.t) :=
  _ ← (if L.(config_is_true) refresh then refresh_db else mret true);
  old ← list_pkgs (PyBool false);
  _ ← retcode "yum -q -y upgrade";
  new ← list_pkgs (PyBool false);
  mret (upgrade_changes old new).

(** *** remove, purge *)

Definition remove (pkg : string) (kwargs : gmap string pyval)
    : State (list string) :=
  old ← list_pkgs (PyBool false);
  _ ← retcode ("yum -q -y remove " +:+ quoted pkg);
  new ← list_pkgs (PyBool false);
  mret (_list_removed old new).

Definition purge (pkg : string) (kwargs : gmap string pyval)
    : State (list string) :=
  remove pkg ∅.

End Yumpkg5.

(** ** __virtual__ *)

Section Virtual.

Context {W pkgs_t sources_t : Type}.
Variable L : loader W pkgs_t sources_t.

(** [int(s)] of a string: the number, or [None] when [int] raises
    ValueError. *)
Variable py_int : string -> option Z.

(** Lines 17-22: the three grains and the major release; [None] when the
    [try] block raises (a grain is missing, or the text before the first
    dot of the release is no number). *)
Definition os_facts : option (string * string * Z) :=
  os_grain ← L.(grains) !! "os";
  os_family ← L.(grains) !! "os_family";
  osrelease ← L.(grains) !! "osrelease";
  os_major_version ← py_int (default EmptyString
                               (head (Py.split_sep "." osrelease)));
  Some (os_grain, os_family, os_major_version).

(** [__virtual__]: ['pkg'] or [False]. *)
Definition __virtual__ : pyval :=
  match os_facts with
  | None => PyBool false
  | Some (os_grain, os_family, os_major_version) =>
      if String.eqb os_grain "Fedora" && (os_major_version <? 11)%Z
      then PyStr "pkg"
      else
        if String.eqb os_family "RedHat" && (os_major_version <=? 5)%Z
        then PyStr "pkg"
        else PyBool false
  end.

End Virtual.

(** ** Vocabulary of the further properties *)

(** Does a blank character, one that [split()] splits at, occur in [s]? *)
Fixpoint has_blank (s : string) : bool :=
  match s with
  | EmptyString => false
  | String c s' => Ascii.is_space c || has_blank s'
  end.

(** The line that the query format of [list_pkgs],
    [%{NAME}_|-%{VERSION}_|-%{RELEASE}_|-%{ARCH}] and a line feed, prints
    for a package, without the line feed. *)
Definition query_line (pkg : string * string * string * string) : string :=
  let '(name, version, rel, arch) := pkg in
  name +:+ "_|-" +:+ version +:+ "_|-" +:+ rel +:+ "_|-" +:+ arch.

(** A field of a package that can stand in a line of the query: it holds
    no vertical bar and no line end. *)
Definition plain (field : string) : bool :=
  negb (Py.has_char "|" field) && negb (Py.has_char Py.CR field)
  && negb (Py.has_char Py.LF field).

(** ** A host to run the module on

    A small loader context for the examples: the world is the text that the
    two tools print, and no command changes it. *)

Module Demo.

Record world : Type := World { rpm_text : string; yum_text : string }.

(** The versions of a name pile up under the name, as
    [pkgs.setdefault(name, []).append(version)] does. *)
Definition add_pkg (ret : gmap string (list string)) (name ver : string)
    : gmap string (list string) :=
  <[name := default [] (ret !! name) ++ [ver]]> ret.

Definition stringify (ret : gmap string (list string)) : gmap string string :=
  Py.join "," <$> ret.

(** The order of the comparator of the examples: strings compared
    character by character. *)
Definition perform_cmp (pkg1 pkg2 : pyval) : option comparison :=
  match pkg1, pkg2 with
  | PyStr a, PyStr b => Some (String.compare a b)
  | _, _ => None
  end.

(** Modelled from the spec: [pkg_resource.compare], which is not among the
    sources; [compare(a, operator, b)] is built atop [compareVersions]
    (here [perform_cmp]) and an undefined comparison decides nothing. *)
Definition compare (pkg1 : pyval) (oper : string) (pkg2 : pyval) : bool :=
  match perform_cmp pkg1 pkg2 with
  | None => false
  | Some c =>
      if String.eqb oper "==" then bool_decide (c = Eq)
      else if String.eqb oper "!=" then bool_decide (c ≠ Eq)
      else if String.eqb oper "<" then bool_decide (c = Lt)
      else if String.eqb oper "<=" then bool_decide (c ≠ Gt)
      else if String.eqb oper ">" then bool_decide (c = Gt)
      else if String.eqb oper ">=" then bool_decide (c ≠ Lt)
      else false
  end.

(** Modelled from the spec: the resolution of the targets, whose
    function [pkg_resource.parse_targets] is not among the sources. It
    yields no target when no package is requested: [pkgs] or [sources]
    given but empty, both given, or nothing given and no name. Otherwise
    the targets are the dict of [pkgs], the list of [sources], or the
    name alone, without a version. *)
Definition parse_targets (name : string) (pkgs : option (gmap string pyval))
    (sources : option (list string)) (w : world) : targets * world :=
  match pkgs, sources with
  | Some d, None => (if bool_decide (d = ∅) then NoTargets else Repository d, w)
  | None, Some l => (match l with [] => NoTargets | _ => Files l end, w)
  | Some _, Some _ => (NoTargets, w)
  | None, None =>
      (if String.eqb name EmptyString then NoTargets
       else Repository {[name := PyNone]}, w)
  end.

Definition find_changes (old new : gmap string pyval) : gmap string Change.t :=
  map_imap (fun k v =>
              match old !! k with
              | Some o => if bool_decide (o = v) then None
                          else Some (Change.mk o v)
              | None => Some (Change.mk (PyStr EmptyString) v)
              end) new.

Definition L (arch : string) : loader world (gmap string pyval) (list string) :=
  {| cmd_run_stdout := fun _ w => (yum_text w, w);
     cmd_run := fun _ w => (rpm_text w, w);
     cmd_retcode := fun _ w => (0%Z, w);
     cmd_run_all := fun _ w => w;
     config_is_true := truthy;
     pkg_resource_add_pkg := add_pkg;
     pkg_resource_sort_pkglist := fun ret => ret;
     pkg_resource_stringify := stringify;
     pkg_resource_parse_targets := parse_targets;
     pkg_resource_find_changes := find_changes;
     pkg_resource_perform_cmp := perform_cmp;
     pkg_resource_compare := compare;
     grains := {["cpuarch" := arch]};
     py_repr := fun s => "'" +:+ s +:+ "'" |}.

Definition nl : string := String Py.LF EmptyString.

(** The listing of the parser example, and a package database. *)
Definition listing : string :=
  "foo.x86_64  1.2.3  installed" +:+ nl +:+
  "Loaded plugins: fastestmirror" +:+ nl.

Definition database : string :=
  "foo_|-2.0_|-1_|-x86_64" +:+ nl +:+ "bar_|-1.0_|-_|-i686" +:+ nl.

Definition start : host world := Host (World database listing) [].

End Demo.


(** A reading of numbers for the examples: a string of decimal digits. *)
Module DemoInt.

Fixpoint digits (acc : Z) (s : string) : option Z :=
  match s with
  | EmptyString => Some acc
  | String c s' =>
      match Ascii.is_nat c with
      | Some d => digits (10 * acc + Z.of_nat d) s'
      | None => None
      end
  end.

Definition int (s : string) : option Z :=
  match s with
  | EmptyString => None
  | _ => digits 0 s
  end.

(** The grains of a machine, over the loader of the examples. *)
Definition machine (os os_family osrelease : string)
    : loader Demo.world (gmap string pyval) (list string) :=
  {| cmd_run_stdout := (Demo.L "x86_64").(cmd_run_stdout);
     cmd_run := (Demo.L "x86_64").(cmd_run);
     cmd_retcode := (Demo.L "x86_64").(cmd_retcode);
     cmd_run_all := (Demo.L "x86_64").(cmd_run_all);
     config_is_true := truthy;
     pkg_resource_add_pkg := Demo.add_pkg;
     pkg_resource_sort_pkglist := fun ret => ret;
     pkg_resource_stringify := Demo.stringify;
     pkg_resource_parse_targets := Demo.parse_targets;
     pkg_resource_find_changes := Demo.find_changes;
     pkg_resource_perform_cmp := Demo.perform_cmp;
     pkg_resource_compare := Demo.compare;
     grains := {["os" := os; "os_family" := os_family;
                 "osrelease" := osrelease]};
     py_repr := fun s => "'" +:+ s +:+ "'" |}.

End DemoInt.

(** ** Properties *)

Section Parser.

(** The two guards of lines 45 and 47. *)
Definition accepted (line : string) : bool :=
  negb (Py.startswith "Loaded plugin" line) &&
  bool_decide (length (Py.split line) = 3).

(** The [i]-th token of a line. *)
Definition token (i : nat) (line : string) : string :=
  default EmptyString (Py.split line !! i).

Lemma parse_lines_step (ls : list string) (acc : list YumOut.t) :
  foldl (fun results line =>
           if negb (Py.startswith "Loaded plugin" line) then
             match Py.split line with
             | [namearchstr; pkgver; pkgstatus] =>
                 let pkgname := (Py.rpartition "." namearchstr).1.1 in
                 results ++ [YumOut.yum_out pkgname pkgver pkgstatus]
             | _ => results
             end
           else results) acc ls
  = acc ++ ((fun line =>
               YumOut.yum_out (Py.rpartition "." (token 0 line)).1.1
                              (token 1 line) (token 2 line))
            <$> filter (fun line => accepted line = true) ls).
Proof.
  revert acc. induction ls as [|line ls IH]; intros acc; simpl.
  - by rewrite app_nil_r.
  - rewrite IH, filter_cons.
    destruct (decide (accepted line = true)) as [Ha|Ha];
      unfold accepted, token in *;
      destruct (Py.startswith "Loaded plugin" line); simpl in *;
      try done;
      destruct (Py.split line) as [|a [|b [|c [|d l]]]]; simpl in *;
      try done.
    by rewrite <- app_assoc.
Qed.

Lemma parse_lines_accepted (out : string) :
  parse_lines out
  = (fun line =>
       YumOut.yum_out (Py.rpartition "." (token 0 line)).1.1
                      (token 1 line) (token 2 line))
    <$> filter (fun line => accepted line = true) (Py.splitlines out).
Proof. unfold parse_lines. by rewrite parse_lines_step. Qed.

(** A token without a dot has no last dot. *)
Lemma rfind_split_no_dot (s : string) :
  Py.has_char "." s = false -> Py.rfind_split "." s = None.
Proof.
  induction s as [|c s IH]; [done|].
  change (Py.has_char "." (String c s))
    with (Ascii.eqb "." c || Py.has_char "." s).
  intros [Hc Hs]%orb_false_elim.
  change (Py.rfind_split "." (String c s))
    with (match Py.rfind_split "." s with
          | Some (h, t) => Some (String c h, t)
          | None =>
              if String.prefix "." (String c s)
              then Some (EmptyString, Py.drop_first 1 (String c s))
              else None
          end).
  rewrite (IH Hs).
  destruct (String.prefix "." (String c s)) eqn:Hp; [|done].
  apply String.prefix_correct in Hp. cbn in Hp.
  apply Ascii.eqb_neq in Hc. congruence.
Qed.

End Parser.

Section ParserClaims.

Context {W pkgs_t sources_t : Type}.
Variable L : loader W pkgs_t sources_t.

(** C5: [_parse_yum] runs the listing command and returns, in the order
    of the lines of its output, one record for each line that does not
    start with the plugin notice and splits into exactly three tokens,
    with the second and third token as version and status; every other
    line is passed over, and the function returns for every output. In
    particular the listing of the example yields the single record
    foo, 1.2.3, installed. *)
Theorem parse_yum_accepts_three_tokens :
  (forall (arg : string) (h : host W),
     let cmd := "yum -q " +:+ arg in
     let answer := L.(cmd_run_stdout) cmd (world h) in
     _parse_yum L arg h
     = ((fun line =>
           YumOut.yum_out (Py.rpartition "." (token 0 line)).1.1
                          (token 1 line) (token 2 line))
        <$> filter (fun line => accepted line = true)
                   (Py.splitlines answer.1),
        Host answer.2 (trace h ++ [Run cmd])))
  /\ parse_lines ("foo.x86_64  1.2.3  installed" +:+ Demo.nl +:+
                  "Loaded plugins: fastestmirror" +:+ Demo.nl)
     = [YumOut.yum_out "foo" "1.2.3" "installed"].
Proof.
  split; [|reflexivity].
  intros arg h cmd answer. unfold _parse_yum, run_stdout.
  unfold mbind, State_bind, mret, State_ret.
  fold cmd. fold answer. destruct answer as [out w] eqn:Ha.
  by rewrite parse_lines_accepted.
Qed.

(** C3 (amended): the record of an accepted line whose name-arch token
    has no dot has the empty name: [rpartition] gives an empty head when
    the separator is absent. *)
Theorem name_without_dot_is_empty (out : string) (i : nat) (line : string) :
  filter (fun line => accepted line = true) (Py.splitlines out) !! i
    = Some line ->
  Py.has_char "." (token 0 line) = false ->
  YumOut.name <$> (parse_lines out !! i) = Some EmptyString.
Proof.
  intros Hi Hdot. rewrite parse_lines_accepted, list_lookup_fmap, Hi.
  simpl. unfold Py.rpartition. by rewrite (rfind_split_no_dot _ Hdot).
Qed.

End ParserClaims.

Lemma name_without_dot_is_empty_witness :
  YumOut.name <$> (parse_lines "foo 1.2.3 installed" !! 0) = Some EmptyString.
Proof.
  apply (name_without_dot_is_empty "foo 1.2.3 installed" 0
           "foo 1.2.3 installed"); reflexivity.
Defined.

(** The line [foo 1.2.3 installed] is accepted, its name-arch token is
    [foo], without a dot, and the name of its record is empty, not [foo]. *)
Lemma name_without_dot_is_not_token :
  let out := "foo 1.2.3 installed" in
  filter (fun line => accepted line = true) (Py.splitlines out) = [out]
  /\ Py.split out = ["foo"; "1.2.3"; "installed"]
  /\ Py.has_char "." "foo" = false
  /\ parse_lines out = [YumOut.yum_out EmptyString "1.2.3" "installed"]
  /\ YumOut.name <$> parse_lines out <> ["foo"].
Proof. repeat split; try reflexivity. discriminate. Qed.

(** Running a computation: the bind of [State] is unfolded and each step
    is named by its result and the host it leaves. *)
Ltac run_state :=
  unfold mbind, State_bind, mret, State_ret;
  repeat (match goal with
          | |- context [let '(_, _) := ?m in _] =>
              lazymatch m with
              | context [let '(_, _) := _ in _] => fail
              | _ => destruct m
              end
          end; cbn [fst snd]).

Section Differ.

Context {W pkgs_t sources_t : Type}.
Variable L : loader W pkgs_t sources_t.

Lemma list_removed_step {V : Type} (new : gmap string V)
    (ks acc : list string) :
  foldl (fun pkgs pkg =>
           if bool_decide (new !! pkg = None) then pkgs ++ [pkg] else pkgs)
        acc ks
  = acc ++ filter (fun k => new !! k = None) ks.
Proof.
  revert acc. induction ks as [|k ks IH]; intros acc; simpl.
  - by rewrite app_nil_r.
  - rewrite IH, filter_cons. case_bool_decide.
    + rewrite decide_True by done. by rewrite <- app_assoc.
    + by rewrite decide_False by done.
Qed.

Lemma filter_none {A : Type} (P : A -> Prop) `{!forall x, Decision (P x)}
    (l : list A) :
  (forall x, x ∈ l -> ~ P x) -> filter P l = [].
Proof.
  induction l as [|x l IH]; intros Hl; [done|].
  rewrite filter_cons_False by (apply Hl; by left).
  apply IH. intros y Hy. apply Hl. by right.
Qed.

(** A list without repetition in which [k] is the only element with the
    property [P] is filtered down to [k]. *)
Lemma filter_only {A : Type} (P : A -> Prop) `{!forall x, Decision (P x)}
    (l : list A) (k : A) :
  NoDup l -> k ∈ l -> P k -> (forall x, x ∈ l -> x <> k -> ~ P x) ->
  filter P l = [k].
Proof.
  induction 1 as [|x l Hx Hnd IH]; intros Hk HP Hothers.
  - by apply elem_of_nil in Hk.
  - rewrite filter_cons. apply elem_of_cons in Hk as [<-|Hk].
    + rewrite decide_True by done. f_equal.
      apply filter_none. intros y Hy.
      apply Hothers; [by right|]. intros ->. done.
    + rewrite decide_False.
      * apply IH; [done..|]. intros y Hy. apply Hothers. by right.
      * apply Hothers; [by left|]. intros ->. done.
Qed.

(** C6 (amended): [_list_removed] returns the names of [before] that are
    not keys of [after], in the order in which [before] is iterated; when
    [before] has [k], [after] lacks [k] and every other name of [before]
    is in [after], the result is [[k]]. *)
Theorem list_removed_absent_names :
  (forall (V : Type) (before after : gmap string V),
     _list_removed before after
     = filter (fun k => after !! k = None) (dict_keys before))
  /\ (forall (V : Type) (before after : gmap string V) (k : string) (v : V),
        before !! k = Some v ->
        after !! k = None ->
        (forall j, j <> k -> is_Some (before !! j) -> is_Some (after !! j)) ->
        _list_removed before after = [k]).
Proof.
  assert (Hfilter : forall (V : Type) (before after : gmap string V),
             _list_removed before after
             = filter (fun k => after !! k = None) (dict_keys before)).
  { intros V before after. unfold _list_removed.
    by rewrite list_removed_step. }
  split; [exact Hfilter|].
  intros V before after k v Hk Hnew Hothers. rewrite Hfilter.
  apply filter_only; [apply NoDup_fst_map_to_list| |done|].
  - apply list_elem_of_fmap. exists (k, v). split; [done|].
    by apply elem_of_map_to_list.
  - intros j [[j' w] [-> Hj]]%list_elem_of_fmap Hne Hnone.
    apply elem_of_map_to_list in Hj. simpl in *.
    destruct (Hothers j' Hne) as [x Hx]; [by eexists|]. congruence.
Qed.

(** The loop of [upgrade] from any dict [acc] of changes, over items with
    distinct names. *)
Lemma upgrade_changes_step (old : gmap string pyval)
    (items : list (string * pyval)) (acc : gmap string Change.t) (k : string) :
  NoDup items.*1 ->
  foldl (fun pkgs item =>
           let '(npkg, new_npkg) := item in
           match old !! npkg with
           | Some old_npkg =>
               if bool_decide (old_npkg = new_npkg) then pkgs
               else <[npkg := Change.mk old_npkg new_npkg]> pkgs
           | None =>
               <[npkg := Change.mk (PyStr EmptyString) new_npkg]> pkgs
           end) acc items !! k
  = match (list_to_map items : gmap string pyval) !! k with
    | None => acc !! k
    | Some nv =>
        match old !! k with
        | Some ov =>
            if bool_decide (ov = nv) then acc !! k
            else Some (Change.mk ov nv)
        | None => Some (Change.mk (PyStr EmptyString) nv)
        end
    end.
Proof.
  revert acc. induction items as [|[n nv] items IH]; intros acc Hnd; [done|].
  apply NoDup_cons in Hnd as [Hn Hnd]. cbn [foldl]. rewrite IH by done.
  cbn [list_to_map foldr uncurry fst snd].
  destruct (decide (n = k)) as [->|Hne].
  - rewrite lookup_insert_eq.
    rewrite (not_elem_of_list_to_map_1 items k) by done.
    destruct (old !! k) as [ov|]; [case_bool_decide|];
      by rewrite ?lookup_insert_eq.
  - rewrite lookup_insert_ne by done.
    assert (Hacc : forall c, (<[n := c]> acc) !! k = acc !! k)
      by (intros c; by rewrite lookup_insert_ne).
    destruct (old !! n) as [ov|]; [case_bool_decide|]; by rewrite ?Hacc.
Qed.

(** C2: for every pair of snapshots, the change set of the loop of
    [upgrade] holds for a name [k] of [after]: nothing when [k] is in
    [before] with an equal version; the old and the new version when it is
    there with another version; the empty string and the new version when
    it is absent from [before]. A name that is not in [after] has no entry,
    also when it is in [before]. [upgrade] returns this change set for the
    snapshots it takes before and after the tool runs. *)
Theorem upgrade_changes_entries :
  (forall (before after : gmap string pyval) (k : string),
     upgrade_changes before after !! k
     = match after !! k with
       | None => None
       | Some nv =>
           match before !! k with
           | Some ov =>
               if bool_decide (ov = nv) then None
               else Some (Change.mk ov nv)
           | None => Some (Change.mk (PyStr EmptyString) nv)
           end
       end)
  /\ (forall (refresh : pyval) (h : host W),
        let h1 := ((if L.(config_is_true) refresh then refresh_db L
                    else mret true) h).2 in
        let before := list_pkgs L (PyBool false) h1 in
        let h2 := (retcode L "yum -q -y upgrade" before.2).2 in
        let after := list_pkgs L (PyBool false) h2 in
        upgrade L refresh h = (upgrade_changes before.1 after.1, after.2)).
Proof.
  split.
  - intros before after k. unfold upgrade_changes.
    rewrite upgrade_changes_step by apply NoDup_fst_map_to_list.
    rewrite list_to_map_to_list, lookup_empty.
    destruct (after !! k); [|done].
    by destruct (before !! k).
  - intros refresh h h1 before h2 after.
    subst after h2 before h1. unfold upgrade. by run_state.
Qed.

End Differ.

Lemma list_removed_absent_names_witness :
  _list_removed ({["a" := 1; "b" := 2]} : gmap string nat) {["b" := 2]}
  = ["a"].
Proof.
  apply (proj2 list_removed_absent_names nat _ _ "a" 1).
  - reflexivity.
  - reflexivity.
  - intros j Hj. by rewrite lookup_insert_ne.
Defined.

(** [before] has [a], [after] lacks it, and the result is not [[a]]: [b]
    is gone as well. *)
Lemma list_removed_two_names :
  let before : gmap string nat := {["a" := 1; "b" := 2]} in
  let after : gmap string nat := ∅ in
  before !! "a" = Some 1
  /\ after !! "a" = None
  /\ _list_removed before after = ["a"; "b"]
  /\ _list_removed before after <> ["a"].
Proof. repeat split; try reflexivity. discriminate. Qed.

Section RepoOptions.

Context {W pkgs_t sources_t : Type}.
Variable L : loader W pkgs_t sources_t.

Lemma append_empty_r (s : string) : s +:+ EmptyString = s.
Proof.
  induction s as [|c s IH]; [done|].
  change (String c s +:+ EmptyString) with (String c (s +:+ EmptyString)).
  by rewrite IH.
Qed.

(** C4: with [named] the value of [fromrepo] when that is set and the
    value of the older [repo] otherwise, the argument string is, when
    [named] is set, the option that disables all repos followed by the
    option that enables [named], whatever [enablerepo] and [disablerepo]
    are; otherwise it is the disable option of [disablerepo], when set,
    followed by the enable option of [enablerepo], when set, so that it is
    empty when neither is set. The world is left as it was. *)
Theorem repo_options_precedence (kwargs : gmap string pyval) (h : host W) :
  let fromrepo := dict_get kwargs "fromrepo" (PyStr EmptyString) in
  let repo := dict_get kwargs "repo" (PyStr EmptyString) in
  let disablerepo := dict_get kwargs "disablerepo" (PyStr EmptyString) in
  let enablerepo := dict_get kwargs "enablerepo" (PyStr EmptyString) in
  let named := if truthy fromrepo then fromrepo else repo in
  (_get_repo_options L kwargs h).1
  = (if truthy named
     then "--disablerepo=" +:+ quoted "*" +:+
          " --enablerepo=" +:+ quoted (pystr L named)
     else (if truthy disablerepo
           then "--disablerepo=" +:+ quoted (pystr L disablerepo) +:+ " "
           else EmptyString) +:+
          (if truthy enablerepo
           then "--enablerepo=" +:+ quoted (pystr L enablerepo) +:+ " "
           else EmptyString))
  /\ world (_get_repo_options L kwargs h).2 = world h.
Proof.
  intros fromrepo repo disablerepo enablerepo named.
  unfold _get_repo_options.
  fold fromrepo repo disablerepo enablerepo. subst named.
  unfold mbind, State_bind, mret, State_ret, log.
  destruct (truthy fromrepo) eqn:Hf; cbn [negb andb].
  - rewrite andb_false_r, Hf. done.
  - rewrite andb_true_r. destruct (truthy repo) eqn:Hr.
    + rewrite Hr. done.
    + rewrite Hf.
      destruct (truthy disablerepo), (truthy enablerepo); cbn [fst snd world];
        rewrite ?append_empty_r; done.
Qed.

End RepoOptions.

Section Tokens.

Lemma rev_app_nonempty (s t : string) :
  t <> EmptyString -> String.rev_app s t <> EmptyString.
Proof.
  revert t. induction s as [|a s IH]; intros t Ht; [done|].
  cbn. by apply IH.
Qed.

Lemma rev_nonempty (s : string) :
  s <> EmptyString -> String.rev s <> EmptyString.
Proof.
  destruct s as [|a s]; [done|]. intros _. unfold String.rev. cbn.
  by apply rev_app_nonempty.
Qed.

Lemma words_go_nonempty (s : string) (cur : option string) :
  (forall c, cur = Some c -> c <> EmptyString) ->
  Forall (fun t => t <> EmptyString) (String.words_go cur s).
Proof.
  revert cur. induction s as [|a s IH]; intros cur Hcur; cbn.
  - destruct cur as [c|]; cbn; [|constructor].
    constructor; [|constructor]. apply rev_nonempty. by apply Hcur.
  - destruct (Ascii.is_space a).
    + apply Forall_app. split; [|by apply IH].
      destruct cur as [c|]; cbn; [|constructor].
      constructor; [|constructor]. apply rev_nonempty. by apply Hcur.
    + apply IH. intros c [= <-]. by destruct cur.
Qed.

(** The tokens of [split()] are not empty. *)
Lemma split_nonempty (s t : string) : t ∈ Py.split s -> t <> EmptyString.
Proof.
  intros Ht. unfold Py.split, String.words in Ht.
  pose proof (words_go_nonempty s None) as Hall.
  rewrite Forall_forall in Hall. apply Hall; [done|exact Ht].
Qed.

(** No record of the parser has an empty version. *)
Lemma parse_lines_version_nonempty (out : string) (r : YumOut.t) :
  r ∈ parse_lines out -> YumOut.version r <> EmptyString.
Proof.
  rewrite parse_lines_accepted.
  intros [line [-> Hline]]%list_elem_of_fmap.
  apply list_elem_of_filter in Hline as [Hacc _]. cbn.
  unfold accepted in Hacc. apply andb_true_iff in Hacc as [_ Hlen].
  apply bool_decide_eq_true in Hlen. unfold token.
  destruct (Py.split line !! 1) as [t|] eqn:Ht.
  - cbn. eapply split_nonempty, list_elem_of_lookup_2, Ht.
  - apply lookup_ge_None in Ht. lia.
Qed.

End Tokens.

Section Latest.

Context {W pkgs_t sources_t : Type}.
Variable L : loader W pkgs_t sources_t.

(** The first loop of [latest_version]. *)
Lemma latest_init_lookup (names : list string) (acc : gmap string string)
    (n : string) :
  foldl (fun ret name => <[name := EmptyString]> ret) acc names !! n
  = if bool_decide (n ∈ names) then Some EmptyString else acc !! n.
Proof.
  revert acc. induction names as [|m names IH]; intros acc; cbn [foldl].
  - by rewrite bool_decide_eq_false_2 by apply not_elem_of_nil.
  - rewrite IH. destruct (decide (n ∈ names)) as [Hin|Hin].
    + rewrite !bool_decide_eq_true_2; [done|by right|done].
    + rewrite (bool_decide_eq_false_2 (n ∈ names)) by done.
      destruct (decide (m = n)) as [->|Hne].
      * rewrite lookup_insert_eq, bool_decide_eq_true_2; [done|by left].
      * rewrite lookup_insert_ne by done.
        rewrite bool_decide_eq_false_2; [done|].
        intros [?|?]%elem_of_cons; congruence.
Qed.

(** The second loop of [latest_version]: the last row of a name wins. *)
Lemma latest_update_lookup (updates : list YumOut.t)
    (acc : gmap string string) (n : string) :
  foldl (fun ret pkg => <[YumOut.name pkg := YumOut.version pkg]> ret)
        acc updates !! n
  = match last (filter (fun r => YumOut.name r = n) updates) with
    | Some r => Some (YumOut.version r)
    | None => acc !! n
    end.
Proof.
  revert acc. induction updates as [|r updates IH]; intros acc;
    cbn [foldl]; [done|].
  rewrite IH, filter_cons. destruct (decide (YumOut.name r = n)) as [<-|Hne].
  - rewrite last_cons, lookup_insert_eq.
    by destruct (last (filter _ updates)).
  - by rewrite lookup_insert_ne.
Qed.

Lemma last_filter_none (updates : list YumOut.t) (n : string) :
  last (filter (fun r => YumOut.name r = n) updates) = None
  <-> (forall r, r ∈ updates -> YumOut.name r <> n).
Proof.
  rewrite last_None. split.
  - intros Hnil r Hr Hn.
    by eapply (filter_nil_not_elem_of _ _ r); [exact Hnil|exact Hn|].
  - intros Hno. apply filter_none. intros r Hr. by apply Hno.
Qed.

(** [latest_version] of one name. *)
Lemma latest_version_single (n : string) (kwargs : gmap string pyval)
    (h : host W) :
  let options := _get_repo_options L kwargs h in
  let listing :=
    _parse_yum L (options.1 +:+ " list available " +:+ Py.join " " [n])
               options.2 in
  let available :=
    YumOut.version <$> last (filter (fun r => YumOut.name r = n) listing.1) in
  latest_version L [n] kwargs h
  = (LStr (default EmptyString available), listing.2)
  /\ (available = None <-> forall r, r ∈ listing.1 -> YumOut.name r <> n).
Proof.
  intros options listing available. split.
  - unfold latest_version. cbn [length].
    rewrite bool_decide_eq_false_2 by done.
    rewrite bool_decide_eq_true_2 by done.
    subst available listing options. run_state.
    unfold first_entry, dict_get.
    rewrite latest_update_lookup. cbn [foldl].
    rewrite lookup_insert_eq. by destruct (last _).
  - unfold available. rewrite fmap_None. apply last_filter_none.
Qed.

(** [latest_version] of two names or more. *)
Lemma latest_version_several (n m : string) (names : list string)
    (kwargs : gmap string pyval) (h : host W) :
  let options := _get_repo_options L kwargs h in
  let listing :=
    _parse_yum L (options.1 +:+ " list available " +:+
                  Py.join " " (n :: m :: names))
               options.2 in
  let available k :=
    YumOut.version <$> last (filter (fun r => YumOut.name r = k) listing.1) in
  exists d : gmap string string,
    latest_version L (n :: m :: names) kwargs h = (LDict d, listing.2)
    /\ forall k, k ∈ n :: m :: names ->
         d !! k = Some (default EmptyString (available k)).
Proof.
  intros options listing available.
  exists (foldl (fun ret pkg =>
                   <[YumOut.name pkg := YumOut.version pkg]> ret)
                (foldl (fun ret name => <[name := EmptyString]> ret)
                       ∅ (n :: m :: names))
                listing.1).
  split.
  - unfold latest_version.
    rewrite bool_decide_eq_false_2 by done.
    subst available listing options. run_state.
    by rewrite bool_decide_eq_false_2 by (cbn; lia).
  - intros k Hk. rewrite latest_update_lookup.
    rewrite latest_init_lookup, bool_decide_eq_true_2 by done.
    unfold available. by destruct (last _).
Qed.

(** C10: the shape of the result of [latest_version] follows the number
    of names. Without a name it is the empty string, and nothing runs.
    With one name it is a string: the version of the last row of the
    listing under that name, and the empty string when no row has the
    name. With more names it is a dict in which every name asked for is a
    key, bound to the version of the last row under that name and to the
    empty string when no row has the name. *)
Theorem latest_version_shape (names : list string)
    (kwargs : gmap string pyval) (h : host W) :
  let options := _get_repo_options L kwargs h in
  let listing :=
    _parse_yum L (options.1 +:+ " list available " +:+ Py.join " " names)
               options.2 in
  let available n :=
    YumOut.version <$> last (filter (fun r => YumOut.name r = n) listing.1) in
  match names with
  | [] => latest_version L names kwargs h = (LStr EmptyString, h)
  | [n] =>
      latest_version L names kwargs h
      = (LStr (default EmptyString (available n)), listing.2)
      /\ (available n = None <->
          forall r, r ∈ listing.1 -> YumOut.name r <> n)
  | _ =>
      exists d : gmap string string,
        latest_version L names kwargs h = (LDict d, listing.2)
        /\ forall n, n ∈ names ->
             d !! n = Some (default EmptyString (available n))
  end.
Proof.
  intros options listing available.
  destruct names as [|n [|m names]].
  - reflexivity.
  - apply latest_version_single.
  - apply latest_version_several.
Qed.

Lemma parse_yum_records (arg : string) (h : host W) :
  (_parse_yum L arg h).1
  = parse_lines (L.(cmd_run_stdout) ("yum -q " +:+ arg) (world h)).1.
Proof. unfold _parse_yum, run_stdout. by run_state. Qed.

Lemma upgrade_available_latest (name : string) (h : host W) :
  upgrade_available L name h
  = (latest_nonempty (latest_version L [name] ∅ h).1,
     (latest_version L [name] ∅ h).2).
Proof. unfold upgrade_available. by run_state. Qed.

(** C8: [upgrade_available] is true exactly when [latest_version] of the
    name is a string that is not empty, which is exactly when the listing
    of available packages has a row under the name. Installed versions are
    not read and no two versions are compared. *)
Theorem upgrade_available_iff_listed (name : string) (h : host W) :
  let query := latest_version L [name] ∅ h in
  let options := _get_repo_options L ∅ h in
  let listing :=
    _parse_yum L (options.1 +:+ " list available " +:+ Py.join " " [name])
               options.2 in
  (upgrade_available L name h).2 = query.2
  /\ ((upgrade_available L name h).1 = true <->
      exists v, query.1 = LStr v /\ v <> EmptyString)
  /\ ((upgrade_available L name h).1 = true <->
      exists r, r ∈ listing.1 /\ YumOut.name r = name).
Proof.
  intros query options listing.
  rewrite upgrade_available_latest. fold query. cbn [fst snd].
  destruct (latest_version_single name ∅ h) as [Hq Hnone].
  fold options in Hq, Hnone. fold listing in Hq, Hnone. fold query in Hq.
  rewrite Hq. cbn [fst snd latest_nonempty].
  set (available :=
         YumOut.version <$>
           last (filter (fun r => YumOut.name r = name) listing.1)) in *.
  assert (Hne : forall v, negb (String.eqb v EmptyString) = true
                          <-> v <> EmptyString).
  { intros v. rewrite negb_true_iff. apply String.eqb_neq. }
  split; [done|]. split.
  - rewrite Hne. split; [by eexists|]. by intros (v & [= <-] & Hv).
  - rewrite Hne. split.
    + intros Hv. destruct available as [v|] eqn:Ha; [|done].
      apply fmap_Some in Ha as (r & Hlast & ->).
      apply last_Some_elem_of, list_elem_of_filter in Hlast as [Hn Hr].
      by exists r.
    + intros (r & Hr & Hn).
      destruct available as [v|] eqn:Ha.
      * apply fmap_Some in Ha as (r' & Hlast & ->). cbn.
        apply last_Some_elem_of, list_elem_of_filter in Hlast as [_ Hr'].
        eapply parse_lines_version_nonempty.
        unfold listing in Hr'. rewrite parse_yum_records in Hr'. exact Hr'.
      * exfalso. by eapply (proj1 Hnone).
Qed.

End Latest.

Section Install.

Context {W pkgs_t sources_t : Type}.
Variable L : loader W pkgs_t sources_t.

(** The loop over the targets of a repository, from any two buckets. *)
Lemma install_targets_step (old : gmap string pyval)
    (items : list (string * pyval)) (t0 d0 : list string) :
  let cver (kv : string * pyval) := dict_get old kv.1 (PyStr EmptyString) in
  let installs (kv : string * pyval) :=
    bool_decide (kv.2 = PyNone) || negb (truthy (cver kv))
    || compare L kv.2 ">=" (cver kv) in
  foldl (install_target L old) (t0, d0) items
  = (t0 ++ ((fun kv => if bool_decide (kv.2 = PyNone) then kv.1
                       else pkgstr L kv.1 kv.2)
            <$> filter (fun kv => installs kv = true) items),
     d0 ++ ((fun kv => pkgstr L kv.1 kv.2)
            <$> filter (fun kv => installs kv = false) items)).
Proof.
  intros cver installs. revert t0 d0.
  induction items as [|[k v] items IH]; intros t0 d0; cbn [foldl].
  - by rewrite !app_nil_r.
  - rewrite !filter_cons.
    assert (Hstep : install_target L old (t0, d0) (k, v)
              = if installs (k, v)
                then (t0 ++ [if bool_decide (v = PyNone) then k
                             else pkgstr L k v], d0)
                else (t0, d0 ++ [pkgstr L k v])).
    { unfold installs, cver, install_target. cbn [fst snd].
      destruct v; cbn [bool_decide decide_rel orb]; try done;
        by destruct (negb _ || _). }
    rewrite Hstep. destruct (installs (k, v)) eqn:Hi.
    + rewrite IH, decide_True, decide_False by done.
      cbn [fmap list_fmap fst snd]. by rewrite <- app_assoc.
    + rewrite IH, decide_False, decide_True by done.
      cbn [fmap list_fmap fst snd]. by rewrite <- app_assoc.
Qed.

Lemma list_pkgs_trace (v : pyval) (h : host W) :
  trace (list_pkgs L v h).2 = trace h ++ [Run (rpm_query)].
Proof.
  unfold list_pkgs, run. run_state.
  by destruct (negb (L.(config_is_true) v)).
Qed.

Lemma install_run_trace (repo_arg : string) (skip_verify : pyval)
    (targets downgrade : list string) (h : host W) :
  trace (install_run L repo_arg skip_verify targets downgrade h).2
  = trace h
    ++ (if bool_decide (targets <> [])
        then [Run (yum_command repo_arg skip_verify "install" targets)]
        else [])
    ++ (if bool_decide (downgrade <> [])
        then [Run (yum_command repo_arg skip_verify "downgrade" downgrade)]
        else []).
Proof.
  unfold install_run, when, run_all.
  unfold mbind, State_bind, mret, State_ret.
  destruct (bool_decide (targets <> [])), (bool_decide (downgrade <> []));
    cbn [fst snd trace]; by rewrite ?app_nil_r, <- ?app_assoc.
Qed.

(** C1 (amended): in an install from a repository, a target with a
    version goes to the install bucket exactly when no version of it is
    installed or the comparator reports the requested version >= the
    installed one, and to the downgrade bucket exactly when a version is
    installed and the comparator does not report that; a target without a
    version goes to the install bucket. Each bucket keeps the order of the
    targets. Between the two snapshots the install bucket is run first and
    the downgrade bucket second, each by a command of its own and only
    when it is not empty. *)
Theorem install_buckets_by_comparison (fromrepo skip_verify : pyval)
    (kwargs d : gmap string pyval) (h : host W) :
  let options := _get_repo_options L (<["fromrepo" := fromrepo]> kwargs) h in
  let before := list_pkgs L (PyBool false) options.2 in
  let cver (kv : string * pyval) :=
    dict_get before.1 kv.1 (PyStr EmptyString) in
  let installs (kv : string * pyval) :=
    bool_decide (kv.2 = PyNone) || negb (truthy (cver kv))
    || compare L kv.2 ">=" (cver kv) in
  let targets :=
    (fun kv => if bool_decide (kv.2 = PyNone) then kv.1
               else pkgstr L kv.1 kv.2)
    <$> filter (fun kv => installs kv = true) (map_to_list d) in
  let downgrade :=
    (fun kv => pkgstr L kv.1 kv.2)
    <$> filter (fun kv => installs kv = false) (map_to_list d) in
  install_buckets L before.1 "repository" (PDict d)
  = Some (targets, downgrade)
  /\ trace (install_rest L "repository" fromrepo skip_verify kwargs
                         (PDict d) h).2
     = trace before.2
       ++ (if bool_decide (targets <> [])
           then [Run (yum_command options.1 skip_verify "install" targets)]
           else [])
       ++ (if bool_decide (downgrade <> [])
           then [Run (yum_command options.1 skip_verify "downgrade"
                                  downgrade)]
           else [])
       ++ [Run rpm_query].
Proof.
  intros options before cver installs targets downgrade.
  assert (Hb : install_buckets L before.1 "repository" (PDict d)
               = Some (targets, downgrade)).
  { unfold install_buckets. cbn [String.eqb Ascii.eqb Bool.eqb iteritems].
    cbn [mbind option_bind]. by rewrite install_targets_step. }
  split; [exact Hb|].
  unfold install_rest, mbind, State_bind.
  fold options. destruct options as [repo_arg h1]. cbn [fst snd] in *.
  fold before. destruct before as [old h2]. cbn [fst snd] in *.
  rewrite Hb.
  pose proof (install_run_trace repo_arg skip_verify targets downgrade h2)
    as Hrun.
  destruct (install_run L repo_arg skip_verify targets downgrade h2)
    as [[] h3].
  pose proof (list_pkgs_trace (PyBool false) h3) as Hnew.
  destruct (list_pkgs L (PyBool false) h3) as [new h4].
  cbn [fst snd mret State_ret] in *.
  by rewrite Hnew, Hrun, <- !app_assoc.
Qed.

(** [_get_repo_options] reads four options, and [version] is none of
    them. *)
Lemma repo_options_without_version (fromrepo : pyval)
    (kwargs : gmap string pyval) :
  _get_repo_options L (<["fromrepo" := fromrepo]> (delete "version" kwargs))
  = _get_repo_options L (<["fromrepo" := fromrepo]> kwargs).
Proof.
  unfold _get_repo_options, dict_get.
  rewrite !lookup_insert_eq.
  rewrite !lookup_insert_ne by done.
  by rewrite !lookup_delete_ne by done.
Qed.

Lemma install_rest_without_version (pkg_type : string)
    (fromrepo skip_verify : pyval) (kwargs : gmap string pyval)
    (pkg_params : params) :
  install_rest L pkg_type fromrepo skip_verify (delete "version" kwargs)
               pkg_params
  = install_rest L pkg_type fromrepo skip_verify kwargs pkg_params.
Proof. unfold install_rest. by rewrite repo_options_without_version. Qed.

(** The targets that [parse_targets] returns never make the loop over
    the targets raise: a list comes with another type than
    [repository]. *)
Lemma install_rest_returns (pkg_type : string) (fromrepo skip_verify : pyval)
    (kwargs : gmap string pyval) (pkg_params : params) (h : host W) :
  pkg_type <> "repository" \/ (exists d, pkg_params = PDict d) ->
  (install_rest L pkg_type fromrepo skip_verify kwargs pkg_params h).1
  <> None.
Proof.
  intros Hok. unfold install_rest, mbind, State_bind.
  destruct (_get_repo_options L _ h) as [repo_arg h1].
  destruct (list_pkgs L (PyBool false) h1) as [old h2].
  assert (is_Some (install_buckets L old pkg_type pkg_params))
    as [[targets downgrade] ->].
  { unfold install_buckets.
    destruct (String.eqb pkg_type "repository") eqn:Ht; [|by eexists].
    apply String.eqb_eq in Ht. destruct Hok as [?|[d ->]]; [done|].
    by eexists. }
  destruct (install_run L repo_arg skip_verify targets downgrade h2)
    as [[] h3].
  by destruct (list_pkgs L (PyBool false) h3).
Qed.

Lemma unpack_returns (r : targets) (pkg_params : params) (pkg_type : string) :
  unpack r = Some (pkg_params, pkg_type) ->
  pkg_type <> "repository" \/ (exists d, pkg_params = PDict d).
Proof. destruct r; intros [= <- <-]; [right; by eexists|by left]. Qed.

(** C7 (amended): let the resolution of the targets of an install call
    yield at least one target and let the [version] option be set. If
    neither [pkgs] nor [sources] is given, the call goes on with the
    single target [{name: version}] and logs no warning for it. If [pkgs]
    or [sources] is given, the call logs the warning and goes on with the
    resolved targets as it would without the [version] option; it returns
    a result. *)
Theorem install_version_option (name : string)
    (refresh fromrepo skip_verify : pyval) (pkgs : option pkgs_t)
    (sources : option sources_t) (kwargs : gmap string pyval) (h : host W)
    (pkg_params : params) (pkg_type : string) :
  let version := dict_get kwargs "version" PyNone in
  let h1 := ((if L.(config_is_true) refresh then refresh_db L
              else mret true) h).2 in
  let resolved := parse_targets L name pkgs sources h1 in
  let warned :=
    (log Warning (quoted "version" +:+
       " parameter will be ignored for muliple package targets")
       resolved.2).2 in
  truthy version = true ->
  unpack resolved.1 = Some (pkg_params, pkg_type) ->
  params_len pkg_params <> 0 ->
  (pkgs = None -> sources = None ->
     install L name refresh fromrepo skip_verify pkgs sources kwargs h
     = install_rest L pkg_type fromrepo skip_verify kwargs
                    (PDict {[name := version]}) resolved.2)
  /\ (pkgs <> None \/ sources <> None ->
      install L name refresh fromrepo skip_verify pkgs sources kwargs h
      = install_rest L pkg_type fromrepo skip_verify
                     (delete "version" kwargs) pkg_params warned
      /\ (install L name refresh fromrepo skip_verify pkgs sources
                  kwargs h).1 <> None).
Proof.
  intros version h1 resolved warned Hv Hu Hlen.
  assert (Hinstall :
    install L name refresh fromrepo skip_verify pkgs sources kwargs h
    = let '(p, h3) :=
        install_version name pkgs sources kwargs pkg_params resolved.2 in
      install_rest L pkg_type fromrepo skip_verify kwargs p h3).
  { unfold install. unfold mbind at 1 2, State_bind at 1 2.
    subst warned resolved h1.
    destruct ((if L.(config_is_true) refresh then refresh_db L
               else mret true) h) as [b hr]. cbn [snd] in *.
    destruct (parse_targets L name pkgs sources hr) as [r hp].
    cbn [fst snd] in *. rewrite Hu.
    rewrite bool_decide_eq_false_2 by done. reflexivity. }
  unfold install_version in Hinstall. fold version in Hinstall.
  rewrite Hv in Hinstall. split.
  - intros -> ->. by rewrite Hinstall.
  - intros Hgiven.
    assert (Hw :
      install L name refresh fromrepo skip_verify pkgs sources kwargs h
      = install_rest L pkg_type fromrepo skip_verify kwargs pkg_params
                     warned).
    { rewrite Hinstall.
      destruct pkgs as [p|], sources as [s|];
        [reflexivity..|by destruct Hgiven]. }
    rewrite install_rest_without_version. split; [exact Hw|].
    rewrite Hw. by eapply install_rest_returns, unpack_returns.
Qed.

(** C9: [purge] returns what [remove] returns for the package, and
    leaves the host as [remove] leaves it, whatever the host and whatever
    the keyword arguments of either call. *)
Theorem purge_is_remove (pkg : string) (kwargs kwargs' : gmap string pyval)
    (h : host W) :
  purge L pkg kwargs h = remove L pkg kwargs' h.
Proof. reflexivity. Qed.

End Install.

Lemma install_version_option_witness :
  let L := Demo.L "x86_64" in
  install L "foo" (PyBool false) PyNone (PyBool false) None None
          {["version" := PyStr "2.0-1"]} Demo.start
  = install_rest L "repository" PyNone (PyBool false)
                 {["version" := PyStr "2.0-1"]}
                 (PDict {["foo" := PyStr "2.0-1"]}) Demo.start
  /\ (install L EmptyString (PyBool false) PyNone (PyBool false)
              (Some {["foo" := PyNone]}) None
              {["version" := PyStr "2.0-1"]} Demo.start).1 <> None.
Proof.
  split.
  - destruct (install_version_option (Demo.L "x86_64") "foo"
                (PyBool false) PyNone (PyBool false) None None
                {["version" := PyStr "2.0-1"]} Demo.start
                (PDict {["foo" := PyNone]}) "repository") as [Hfold _].
    + reflexivity.
    + reflexivity.
    + vm_compute. discriminate.
    + apply Hfold; reflexivity.
  - destruct (install_version_option (Demo.L "x86_64") EmptyString
                (PyBool false) PyNone (PyBool false)
                (Some {["foo" := PyNone]}) None
                {["version" := PyStr "2.0-1"]} Demo.start
                (PDict {["foo" := PyNone]}) "repository") as [_ Hignored].
    + reflexivity.
    + reflexivity.
    + vm_compute. discriminate.
    + apply Hignored. left. discriminate.
Defined.

(** An install with [pkgs] given, but empty, and a [version]: there is no
    target, the call returns the empty result at once, and nothing is
    logged. *)
Lemma install_without_targets_logs_nothing :
  let call :=
    install (Demo.L "x86_64") EmptyString (PyBool false) PyNone (PyBool false)
            (Some ∅) None {["version" := PyStr "1.0"]} Demo.start in
  truthy (dict_get {["version" := PyStr "1.0"]} "version" PyNone) = true
  /\ call.1 = Some ∅
  /\ trace call.2 = []
  /\ (forall msg, Log Warning msg ∉ trace call.2).
Proof.
  repeat split; try reflexivity. intros msg Hin.
  by apply elem_of_nil in Hin.
Qed.

(** [foo] is installed at 2.0-1 and 2.0-1 is asked for: the installed
    version is >= the requested one and not < it, and the target is in
    the install bucket, not in the downgrade bucket; the install command
    is the one that runs. *)
Lemma install_equal_version_is_installed :
  let L := Demo.L "x86_64" in
  let old : gmap string pyval := {["foo" := PyStr "2.0-1"]} in
  let call :=
    install L "foo" (PyBool false) PyNone (PyBool false) None None
            {["version" := PyStr "2.0-1"]} Demo.start in
  (list_pkgs L (PyBool false) Demo.start).1 !! "foo" = Some (PyStr "2.0-1")
  /\ compare L (PyStr "2.0-1") ">=" (PyStr "2.0-1") = true
  /\ compare L (PyStr "2.0-1") "<" (PyStr "2.0-1") = false
  /\ install_buckets L old "repository" (PDict {["foo" := PyStr "2.0-1"]})
     = Some ([quoted "foo-2.0-1"], [])
  /\ trace call.2
     = [Run rpm_query;
        Run ("yum -y   install " +:+ quoted "foo-2.0-1");
        Run rpm_query].
Proof. repeat split; reflexivity. Qed.

(** The two installs of [foo] at 2.0-1 of the specification: over an
    installed 1.0-1 the target is in the install bucket, over an installed
    3.0-1 it is in the downgrade bucket. *)
Lemma install_buckets_examples :
  let L := Demo.L "x86_64" in
  let request := PDict {["foo" := PyStr "2.0-1"]} in
  install_buckets L {["foo" := PyStr "1.0-1"]} "repository" request
  = Some ([quoted "foo-2.0-1"], [])
  /\ install_buckets L {["foo" := PyStr "3.0-1"]} "repository" request
     = Some ([], [quoted "foo-2.0-1"])
  /\ install_buckets L ∅ "repository" request
     = Some ([quoted "foo-2.0-1"], []).
Proof. repeat split; reflexivity. Qed.

(** ** Further properties of the differ *)

Section DifferFacts.

Lemma list_removed_elem {V : Type} (before after : gmap string V) (k : string) :
  k ∈ _list_removed before after
  <-> is_Some (before !! k) /\ after !! k = None.
Proof.
  unfold _list_removed. rewrite list_removed_step, app_nil_l.
  rewrite list_elem_of_filter. unfold dict_keys.
  rewrite list_elem_of_fmap. split.
  - intros [Hnone [[k' v] [-> Hin]]]. apply elem_of_map_to_list in Hin.
    split; [by eexists|done].
  - intros [[v Hv] Hnone]. split; [done|].
    exists (k, v). split; [done|]. by apply elem_of_map_to_list.
Qed.

Lemma upgrade_changes_lookup (before after : gmap string pyval) (k : string) :
  upgrade_changes before after !! k
  = match after !! k with
    | None => None
    | Some nv =>
        match before !! k with
        | Some ov =>
            if bool_decide (ov = nv) then None else Some (Change.mk ov nv)
        | None => Some (Change.mk (PyStr EmptyString) nv)
        end
    end.
Proof.
  unfold upgrade_changes.
  rewrite upgrade_changes_step by apply NoDup_fst_map_to_list.
  rewrite list_to_map_to_list, lookup_empty.
  destruct (after !! k); [|done]. by destruct (before !! k).
Qed.

(** X1: No name is reported as removed exactly when every name of [before]
    is still a key of [after]; in particular a snapshot compared with
    itself reports nothing. *)
Theorem list_removed_empty_iff {V : Type} (before after : gmap string V) :
  (_list_removed before after = [] <-> dom before ⊆ dom after)
  /\ _list_removed before before = [].
Proof.
  assert (Hiff : forall a b : gmap string V,
             _list_removed a b = [] <-> dom a ⊆ dom b).
  { intros a b. split.
    - intros Hnil k [v Hv]%elem_of_dom. apply elem_of_dom.
      destruct (b !! k) as [w|] eqn:Hb; [by eexists|].
      assert (Hin : k ∈ _list_removed a b)
        by (apply list_removed_elem; split; [by eexists|done]).
      rewrite Hnil in Hin. by apply elem_of_nil in Hin.
    - intros Hsub. destruct (_list_removed a b) as [|k l] eqn:Hl; [done|].
      assert (Hin : k ∈ _list_removed a b) by (rewrite Hl; by left).
      apply list_removed_elem in Hin as [Ha Hb].
      apply elem_of_dom, Hsub, elem_of_dom in Ha.
      rewrite Hb in Ha. by destruct Ha. }
  split; [apply Hiff|]. by apply Hiff.
Qed.

(** X2: The change set is empty exactly when every package of [after] is in
    [before] with the same version; in particular a snapshot compared with
    itself has no change. Packages that are only in [before] do not
    matter. *)
Theorem upgrade_changes_empty_iff (before after : gmap string pyval) :
  (upgrade_changes before after = ∅ <-> after ⊆ before)
  /\ upgrade_changes before before = ∅.
Proof.
  assert (Hiff : forall a b : gmap string pyval,
             upgrade_changes a b = ∅ <-> b ⊆ a).
  { intros a b. rewrite map_subseteq_spec. split.
    - intros Hempty k v Hk.
      pose proof (upgrade_changes_lookup a b k) as Hl.
      rewrite Hempty, lookup_empty, Hk in Hl.
      destruct (a !! k) as [ov|]; [|done].
      case_bool_decide; [by subst|done].
    - intros Hsub. apply map_eq. intros k.
      rewrite upgrade_changes_lookup, lookup_empty.
      destruct (b !! k) as [v|] eqn:Hk; [|done].
      rewrite (Hsub k v Hk). by rewrite bool_decide_eq_true_2. }
  split; [apply Hiff|]. by apply Hiff.
Qed.

(** X3: A package that appears: when [after] is [before] with one more name
    [k], the change set is the single entry of [k], from the empty string
    to its version, and no name is reported as removed. *)
Theorem diff_of_added_package (before : gmap string pyval) (k : string)
    (v : pyval) :
  before !! k = None ->
  upgrade_changes before (<[k := v]> before)
  = {[k := Change.mk (PyStr EmptyString) v]}
  /\ _list_removed before (<[k := v]> before) = [].
Proof.
  intros Hk. split.
  - apply map_eq. intros j. rewrite upgrade_changes_lookup.
    destruct (decide (k = j)) as [<-|Hne].
    + by rewrite lookup_insert_eq, Hk, lookup_singleton_eq.
    + rewrite lookup_insert_ne, lookup_singleton_ne by done.
      destruct (before !! j); [|done]. by rewrite bool_decide_eq_true_2.
  - destruct (_list_removed before (<[k:=v]> before)) as [|j l] eqn:Hl;
      [done|].
    assert (Hin : j ∈ _list_removed before (<[k:=v]> before))
      by (rewrite Hl; by left).
    apply list_removed_elem in Hin as [[w Hw] Hnone].
    apply lookup_insert_None in Hnone as [Hnone _]. congruence.
Qed.

(** X4: A package whose version changes: when [after] is [before] with
    another version [v2] for the name [k], the change set is the single
    entry of [k], from the old version to [v2], and no name is reported as
    removed. *)
Theorem diff_of_changed_version (before : gmap string pyval) (k : string)
    (v1 v2 : pyval) :
  before !! k = Some v1 ->
  v1 <> v2 ->
  upgrade_changes before (<[k := v2]> before) = {[k := Change.mk v1 v2]}
  /\ _list_removed before (<[k := v2]> before) = [].
Proof.
  intros Hk Hne. split.
  - apply map_eq. intros j. rewrite upgrade_changes_lookup.
    destruct (decide (k = j)) as [<-|Hkj].
    + rewrite lookup_insert_eq, Hk, lookup_singleton_eq.
      by rewrite bool_decide_eq_false_2.
    + rewrite lookup_insert_ne, lookup_singleton_ne by done.
      destruct (before !! j); [|done]. by rewrite bool_decide_eq_true_2.
  - destruct (_list_removed before (<[k:=v2]> before)) as [|j l] eqn:Hl;
      [done|].
    assert (Hin : j ∈ _list_removed before (<[k:=v2]> before))
      by (rewrite Hl; by left).
    apply list_removed_elem in Hin as [[w Hw] Hnone].
    apply lookup_insert_None in Hnone as [Hnone _]. congruence.
Qed.

(** X5: A package that disappears: when [after] is [before] without the name
    [k], the removed list is [[k]] and the change set is empty: a removal
    leaves no trace in the change set. *)
Theorem diff_of_removed_package (before : gmap string pyval) (k : string)
    (v : pyval) :
  before !! k = Some v ->
  _list_removed before (delete k before) = [k]
  /\ upgrade_changes before (delete k before) = ∅.
Proof.
  intros Hk. split.
  - unfold _list_removed. rewrite list_removed_step, app_nil_l.
    apply filter_only.
    + apply NoDup_fst_map_to_list.
    + apply list_elem_of_fmap. exists (k, v). split; [done|].
      by apply elem_of_map_to_list.
    + apply lookup_delete_eq.
    + intros j [[j' w] [-> Hj]]%list_elem_of_fmap Hne.
      apply elem_of_map_to_list in Hj. cbn in *.
      rewrite lookup_delete_ne by done. congruence.
  - apply map_eq. intros j.
    rewrite upgrade_changes_lookup, lookup_empty.
    destruct (delete k before !! j) as [w|] eqn:Hj; [|done].
    apply lookup_delete_Some in Hj as [_ Hj]. rewrite Hj.
    by rewrite bool_decide_eq_true_2.
Qed.

(** X6: The two differs never report the same name: a name in the removed
    list has no entry in the change set, and the names of the change set
    are names of [after]. *)
Theorem removed_and_changed_disjoint (before after : gmap string pyval)
    (k : string) :
  ~ (k ∈ _list_removed before after
     /\ is_Some (upgrade_changes before after !! k))
  /\ (is_Some (upgrade_changes before after !! k) -> is_Some (after !! k))
  /\ NoDup (_list_removed before after).
Proof.
  split; [|split].
  - intros [[_ Hnone]%list_removed_elem Hsome].
    rewrite upgrade_changes_lookup, Hnone in Hsome. by destruct Hsome.
  - rewrite upgrade_changes_lookup. destruct (after !! k); [by eexists|].
    by intros [].
  - unfold _list_removed. rewrite list_removed_step, app_nil_l.
    apply NoDup_filter, NoDup_fst_map_to_list.
Qed.

End DifferFacts.

(** ** Further properties of the parser *)

Section ParserFacts.

Lemma append_cons (c : ascii) (a b : string) :
  String c a +:+ b = String c (a +:+ b).
Proof. reflexivity. Qed.

Lemma has_blank_app (a b : string) :
  has_blank (a +:+ b) = has_blank a || has_blank b.
Proof.
  induction a as [|c a IH]; [done|].
  rewrite append_cons. cbn [has_blank]. by rewrite IH, orb_assoc.
Qed.

Lemma has_blank_rev_app (s t : string) :
  has_blank (String.rev_app s t) = has_blank s || has_blank t.
Proof.
  revert t. induction s as [|c s IH]; intros t; [done|].
  cbn [String.rev_app has_blank]. rewrite IH. cbn [has_blank].
  destruct (Ascii.is_space c), (has_blank s), (has_blank t); done.
Qed.

Lemma words_go_no_blank (s : string) (cur : option string) :
  (forall c, cur = Some c -> has_blank c = false) ->
  Forall (fun t => has_blank t = false) (String.words_go cur s).
Proof.
  revert cur. induction s as [|a s IH]; intros cur Hcur; cbn.
  - destruct cur as [c|]; cbn; [|constructor].
    constructor; [|constructor]. unfold String.rev.
    rewrite has_blank_rev_app. by rewrite (Hcur c).
  - destruct (Ascii.is_space a) eqn:Ha.
    + apply Forall_app. split; [|by apply IH].
      destruct cur as [c|]; cbn; [|constructor].
      constructor; [|constructor]. unfold String.rev.
      rewrite has_blank_rev_app. by rewrite (Hcur c).
    + apply IH. intros c [= <-]. destruct cur as [c'|]; cbn.
      * by rewrite Ha, (Hcur c').
      * by rewrite Ha.
Qed.

Lemma split_no_blank (s t : string) : t ∈ Py.split s -> has_blank t = false.
Proof.
  intros Ht. unfold Py.split, String.words in Ht.
  pose proof (words_go_no_blank s None) as Hall.
  rewrite Forall_forall in Hall. apply Hall; [done|exact Ht].
Qed.

(** A token with a dot has a last dot: the token is the head, the dot and
    a tail without dot. *)
Lemma rfind_split_dot (s : string) :
  match Py.rfind_split "." s with
  | Some (h, t) => s = h +:+ "." +:+ t /\ Py.has_char "." t = false
  | None => Py.has_char "." s = false
  end.
Proof.
  induction s as [|c s IH]; [done|].
  change (Py.rfind_split "." (String c s))
    with (match Py.rfind_split "." s with
          | Some (h, t) => Some (String c h, t)
          | None =>
              if String.prefix "." (String c s)
              then Some (EmptyString, Py.drop_first 1 (String c s))
              else None
          end).
  change (Py.has_char "." (String c s))
    with (Ascii.eqb "." c || Py.has_char "." s).
  destruct (Py.rfind_split "." s) as [[h t]|].
  - destruct IH as [-> Ht]. by rewrite append_cons.
  - destruct (String.prefix "." (String c s)) eqn:Hp.
    + apply String.prefix_correct in Hp. cbn in Hp.
      injection Hp as ->. by split.
    + rewrite IH, orb_false_r. apply Ascii.eqb_neq. intros <-.
      by destruct s.
Qed.

(** The lines of a text that ends in a line feed and goes on, up to the
    lines that the parser passes over. *)
Lemma splitlines_go_app (P : string -> Prop) `{!forall x, Decision (P x)}
    (a b cur : string) :
  ~ P EmptyString ->
  filter P (Py.splitlines_go cur (a +:+ String Py.LF b))
  = filter P (Py.splitlines_go cur a) ++ filter P (Py.splitlines b).
Proof.
  intros Hempty. remember (String.length a) as n eqn:Hn.
  revert a cur Hn. induction n as [n IH] using lt_wf_ind.
  intros a cur ->. destruct a as [|c a].
  - change (EmptyString +:+ String Py.LF b) with (String Py.LF b).
    change (Py.splitlines_go cur (String Py.LF b))
      with (String.rev cur :: Py.splitlines b).
    destruct cur as [|c0 cur].
    + change (Py.splitlines_go EmptyString EmptyString) with (@nil string).
      by rewrite filter_cons_False.
    + change (Py.splitlines_go (String c0 cur) EmptyString)
        with [String.rev (String c0 cur)].
      rewrite !filter_cons, filter_nil.
      by destruct (decide (P (String.rev (String c0 cur)))).
  - rewrite append_cons. cbn [Py.splitlines_go].
    destruct (Ascii.eqb c Py.CR) eqn:Hcr.
    + destruct a as [|c' a].
      * change (EmptyString +:+ String Py.LF b) with (String Py.LF b).
        cbv beta iota.
        rewrite Ascii.eqb_refl, !filter_cons, filter_nil.
        by destruct (decide (P (String.rev cur))).
      * rewrite append_cons. cbv beta iota.
        destruct (Ascii.eqb c' Py.LF) eqn:Hlf.
        -- rewrite !filter_cons.
           rewrite (IH (String.length a)) with (a := a) (cur := EmptyString);
             [|cbn; lia|done].
           by destruct (decide (P (String.rev cur))).
        -- rewrite !filter_cons. rewrite <- append_cons.
           rewrite (IH (String.length (String c' a)))
             with (a := String c' a) (cur := EmptyString); [|cbn; lia|done].
           by destruct (decide (P (String.rev cur))).
    + destruct (Ascii.eqb c Py.LF) eqn:Hlf.
      * rewrite !filter_cons.
        rewrite (IH (String.length a)) with (a := a) (cur := EmptyString);
          [|cbn; lia|done].
        by destruct (decide (P (String.rev cur))).
      * by rewrite (IH (String.length a)) with (a := a) (cur := String c cur);
          [|cbn; lia|].
Qed.

End ParserFacts.

Section ParserExtras.

Lemma accepted_tokens (line : string) :
  accepted line = true ->
  Py.split line = [token 0 line; token 1 line; token 2 line].
Proof.
  unfold accepted, token. intros [_ Hlen]%andb_true_iff.
  apply bool_decide_eq_true in Hlen.
  by destruct (Py.split line) as [|a [|b [|c [|d l]]]].
Qed.

(** X7: The fields of the records of [_parse_yum]: the version and the status
    are never empty, no field holds a blank, and there are no more records
    than lines. *)
Theorem parse_lines_fields (out : string) :
  Forall (fun r =>
            YumOut.version r <> EmptyString
            /\ YumOut.status r <> EmptyString
            /\ has_blank (YumOut.name r) = false
            /\ has_blank (YumOut.version r) = false
            /\ has_blank (YumOut.status r) = false)
         (parse_lines out)
  /\ length (parse_lines out) <= length (Py.splitlines out).
Proof.
  rewrite parse_lines_accepted. split.
  - apply Forall_fmap, Forall_forall. intros line Hline.
    apply list_elem_of_filter in Hline as [Hacc _].
    pose proof (accepted_tokens line Hacc) as Htok. cbn.
    assert (Hin : forall i, i < 3 -> token i line ∈ Py.split line).
    { intros i Hi. rewrite Htok.
      destruct i as [|[|[|i]]]; [set_solver..|lia]. }
    repeat split.
    + by eapply split_nonempty, (Hin 1); lia.
    + by eapply split_nonempty, (Hin 2); lia.
    + pose proof (split_no_blank line _ (Hin 0 ltac:(lia))) as H0.
      unfold Py.rpartition.
      pose proof (rfind_split_dot (token 0 line)) as Hdot.
      destruct (Py.rfind_split "." (token 0 line)) as [[h t]|]; [|done].
      destruct Hdot as [Heq _]. rewrite Heq, has_blank_app in H0.
      by apply orb_false_elim in H0 as [? _].
    + by eapply split_no_blank, (Hin 1); lia.
    + by eapply split_no_blank, (Hin 2); lia.
  - rewrite length_fmap. apply length_filter.
Qed.

(** X8: The name of a record is its name-arch token without the last dot and
    what follows it: for an accepted line whose first token has a dot, the
    token is the name, a dot, and a tail without dot; version and status
    are the second and third token. *)
Theorem name_with_dot_drops_arch (out : string) (i : nat) (line : string) :
  filter (fun line => accepted line = true) (Py.splitlines out) !! i
    = Some line ->
  Py.has_char "." (token 0 line) = true ->
  exists (r : YumOut.t) (arch : string),
    parse_lines out !! i = Some r
    /\ token 0 line = YumOut.name r +:+ "." +:+ arch
    /\ Py.has_char "." arch = false
    /\ YumOut.version r = token 1 line
    /\ YumOut.status r = token 2 line.
Proof.
  intros Hi Hdot. rewrite parse_lines_accepted, list_lookup_fmap, Hi.
  cbn. unfold Py.rpartition.
  pose proof (rfind_split_dot (token 0 line)) as Hsplit.
  destruct (Py.rfind_split "." (token 0 line)) as [[h t]|]; [|congruence].
  destruct Hsplit as [Heq Ht]. eexists _, t. cbn. by repeat split.
Qed.

(** X9: The parser works line by line: the records of a text, a line feed
    and another text are the records of the first text followed by the
    records of the second. *)
Theorem parse_lines_app (a b : string) :
  parse_lines (a +:+ String Py.LF b) = parse_lines a ++ parse_lines b.
Proof.
  rewrite !parse_lines_accepted. unfold Py.splitlines.
  rewrite splitlines_go_app by done. by rewrite fmap_app.
Qed.

End ParserExtras.

Lemma name_with_dot_drops_arch_witness :
  exists (r : YumOut.t) (arch : string),
    parse_lines "foo.bar.x86_64 1.2.3 updates" !! 0 = Some r
    /\ token 0 "foo.bar.x86_64 1.2.3 updates"
       = YumOut.name r +:+ "." +:+ arch
    /\ Py.has_char "." arch = false
    /\ YumOut.version r = token 1 "foo.bar.x86_64 1.2.3 updates"
    /\ YumOut.status r = token 2 "foo.bar.x86_64 1.2.3 updates".
Proof.
  apply (name_with_dot_drops_arch "foo.bar.x86_64 1.2.3 updates" 0
           "foo.bar.x86_64 1.2.3 updates"); reflexivity.
Defined.

Lemma diff_of_added_package_witness :
  upgrade_changes {["foo" := PyStr "1.0"]}
                  (<["bar" := PyStr "2.0"]> {["foo" := PyStr "1.0"]})
  = {["bar" := Change.mk (PyStr EmptyString) (PyStr "2.0")]}
  /\ _list_removed ({["foo" := PyStr "1.0"]} : gmap string pyval)
                   (<["bar" := PyStr "2.0"]> {["foo" := PyStr "1.0"]}) = [].
Proof.
  apply (diff_of_added_package {["foo" := PyStr "1.0"]} "bar" (PyStr "2.0")).
  reflexivity.
Defined.

Lemma diff_of_changed_version_witness :
  upgrade_changes {["foo" := PyStr "1.0"]}
                  (<["foo" := PyStr "2.0"]> {["foo" := PyStr "1.0"]})
  = {["foo" := Change.mk (PyStr "1.0") (PyStr "2.0")]}
  /\ _list_removed ({["foo" := PyStr "1.0"]} : gmap string pyval)
                   (<["foo" := PyStr "2.0"]> {["foo" := PyStr "1.0"]}) = [].
Proof.
  apply (diff_of_changed_version {["foo" := PyStr "1.0"]} "foo"
           (PyStr "1.0") (PyStr "2.0")).
  - reflexivity.
  - discriminate.
Defined.

Lemma diff_of_removed_package_witness :
  _list_removed ({["foo" := PyStr "1.0"; "bar" := PyStr "2.0"]}
                   : gmap string pyval)
                (delete "foo" {["foo" := PyStr "1.0"; "bar" := PyStr "2.0"]})
  = ["foo"]
  /\ upgrade_changes {["foo" := PyStr "1.0"; "bar" := PyStr "2.0"]}
       (delete "foo" {["foo" := PyStr "1.0"; "bar" := PyStr "2.0"]}) = ∅.
Proof.
  apply (diff_of_removed_package
           {["foo" := PyStr "1.0"; "bar" := PyStr "2.0"]} "foo" (PyStr "1.0")).
  reflexivity.
Defined.

(** ** Further properties of the queries *)

Section QueryFacts.

Context {W pkgs_t sources_t : Type}.
Variable L : loader W pkgs_t sources_t.

Lemma repo_options_agree (kwargs kwargs' : gmap string pyval) :
  (forall k, k ∈ ["fromrepo"; "repo"; "disablerepo"; "enablerepo"] ->
             kwargs !! k = kwargs' !! k) ->
  _get_repo_options L kwargs = _get_repo_options L kwargs'.
Proof.
  intros Hk. unfold _get_repo_options, dict_get.
  rewrite !(Hk "fromrepo"), !(Hk "repo"), !(Hk "disablerepo"),
    !(Hk "enablerepo") by set_solver.
  done.
Qed.

(** X10: Of its keyword arguments [latest_version] reads the four repo options
    and nothing else: two calls whose keyword arguments agree on
    [fromrepo], [repo], [disablerepo] and [enablerepo] are the same
    computation, and so are the two calls of [_get_repo_options]. *)
Theorem latest_version_reads_repo_options (names : list string)
    (kwargs kwargs' : gmap string pyval) :
  (forall k, k ∈ ["fromrepo"; "repo"; "disablerepo"; "enablerepo"] ->
             kwargs !! k = kwargs' !! k) ->
  _get_repo_options L kwargs = _get_repo_options L kwargs'
  /\ latest_version L names kwargs = latest_version L names kwargs'.
Proof.
  intros Hk. pose proof (repo_options_agree _ _ Hk) as Heq.
  split; [exact Heq|]. unfold latest_version. by rewrite Heq.
Qed.

(** X11: [_get_repo_options] runs no command and leaves the world alone; it
    logs one info record for the repo it restricts to, or else one for the
    repo it disables and one for the repo it enables, in this order. *)
Theorem repo_options_log (kwargs : gmap string pyval) (h : host W) :
  let fromrepo := dict_get kwargs "fromrepo" (PyStr EmptyString) in
  let repo := dict_get kwargs "repo" (PyStr EmptyString) in
  let disablerepo := dict_get kwargs "disablerepo" (PyStr EmptyString) in
  let enablerepo := dict_get kwargs "enablerepo" (PyStr EmptyString) in
  let named := if truthy fromrepo then fromrepo else repo in
  (_get_repo_options L kwargs h).2
  = Host (world h)
         (trace h ++
          if truthy named
          then [Log Info ("Restricting to repo " +:+ quoted (pystr L named))]
          else (if truthy disablerepo
                then [Log Info ("Disabling repo " +:+
                                quoted (pystr L disablerepo))]
                else [])
               ++ (if truthy enablerepo
                   then [Log Info ("Enabling repo " +:+
                                   quoted (pystr L enablerepo))]
                   else [])).
Proof.
  intros fromrepo repo disablerepo enablerepo named.
  unfold _get_repo_options.
  fold fromrepo repo disablerepo enablerepo. subst named.
  unfold mbind, State_bind, mret, State_ret, log.
  destruct h as [w t].
  destruct (truthy fromrepo) eqn:Hf; cbn [negb andb].
  - by rewrite andb_false_r, Hf.
  - rewrite andb_true_r. destruct (truthy repo) eqn:Hr.
    + by rewrite Hr.
    + rewrite Hf.
      destruct (truthy disablerepo), (truthy enablerepo);
        cbn [fst snd world trace]; by rewrite ?app_nil_r, <- ?app_assoc.
Qed.

(** X12: With two names or more the dict of [latest_version] holds the names
    asked for and the names of the rows of the listing, and no other: a
    name is bound to the version of its last row, to the empty string when
    it has no row and was asked for, and is absent otherwise. *)
Theorem latest_version_dict (n m : string) (names : list string)
    (kwargs : gmap string pyval) (h : host W) :
  let options := _get_repo_options L kwargs h in
  let listing :=
    _parse_yum L (options.1 +:+ " list available " +:+
                  Py.join " " (n :: m :: names))
               options.2 in
  exists d : gmap string string,
    (latest_version L (n :: m :: names) kwargs h).1 = LDict d
    /\ forall k,
         d !! k
         = match last (filter (fun r => YumOut.name r = k) listing.1) with
           | Some r => Some (YumOut.version r)
           | None =>
               if bool_decide (k ∈ n :: m :: names) then Some EmptyString
               else None
           end.
Proof.
  intros options listing.
  exists (foldl (fun ret pkg =>
                   <[YumOut.name pkg := YumOut.version pkg]> ret)
                (foldl (fun ret name => <[name := EmptyString]> ret)
                       ∅ (n :: m :: names))
                listing.1).
  split.
  - unfold latest_version.
    rewrite bool_decide_eq_false_2 by done.
    subst listing options. run_state.
    by rewrite bool_decide_eq_false_2 by (cbn; lia).
  - intros k. rewrite latest_update_lookup.
    destruct (last _); [done|].
    by rewrite latest_init_lookup, lookup_empty.
Qed.

(** X13: [upgrade_available] runs one command, the listing of the available
    versions of the name without any repo option, and logs nothing. *)
Theorem upgrade_available_command (name : string) (h : host W) :
  let cmd := "yum -q  list available " +:+ name in
  (upgrade_available L name h).2
  = Host (L.(cmd_run_stdout) cmd (world h)).2 (trace h ++ [Run cmd]).
Proof.
  intros cmd. unfold upgrade_available, latest_version.
  rewrite bool_decide_eq_false_2 by done.
  rewrite bool_decide_eq_true_2 by done.
  unfold _get_repo_options, dict_get. rewrite !lookup_empty.
  cbn [default truthy String.eqb negb andb].
  unfold _parse_yum, run_stdout.
  unfold mbind, State_bind, mret, State_ret.
  cbn [fst snd world trace].
  change (Py.join " " [name]) with name.
  change ("yum -q " +:+ EmptyString +:+ " list available " +:+ name)
    with cmd.
  destruct h as [w t]. cbn [world trace].
  by destruct (L.(cmd_run_stdout) cmd w).
Qed.

Lemma dict_of_pairs_fmap {A V : Type} (f : A -> string * V) (l : list A)
    (acc : gmap string V) :
  foldl (fun d kv => <[kv.1 := kv.2]> d) acc (f <$> l)
  = foldl (fun d x => <[(f x).1 := (f x).2]> d) acc l.
Proof.
  revert acc. induction l as [|x l IH]; intros acc; [done|].
  cbn [fmap list_fmap foldl]. apply IH.
Qed.

(** X14: [list_upgrades] binds every name of a row of the check-update
    listing to the version of its last row, and binds no other name; no
    version it returns is empty. It runs the cache clean first when
    [refresh] is true, and then the listing. *)
Theorem list_upgrades_entries (refresh : pyval) (h : host W) :
  let h1 := ((if L.(config_is_true) refresh then refresh_db L
              else mret true) h).2 in
  let listing := _parse_yum L "check-update" h1 in
  (list_upgrades L refresh h).2 = listing.2
  /\ (forall k,
        (list_upgrades L refresh h).1 !! k
        = YumOut.version
          <$> last (filter (fun r => YumOut.name r = k) listing.1))
  /\ (forall k, (list_upgrades L refresh h).1 !! k <> Some EmptyString)
  /\ trace listing.2
     = trace h
       ++ (if L.(config_is_true) refresh
           then [Run "yum -q clean dbcache"] else [])
       ++ [Run "yum -q check-update"].
Proof.
  intros h1 listing.
  assert (Hrun : list_upgrades L refresh h
                 = (dict_of_pairs ((fun i => (YumOut.name i, YumOut.version i))
                                   <$> listing.1), listing.2)).
  { subst listing h1. unfold list_upgrades. by run_state. }
  assert (Hlook : forall k,
            (list_upgrades L refresh h).1 !! k
            = YumOut.version
              <$> last (filter (fun r => YumOut.name r = k) listing.1)).
  { intros k. rewrite Hrun. cbn [fst]. unfold dict_of_pairs.
    rewrite dict_of_pairs_fmap. cbn [fst snd].
    rewrite latest_update_lookup, lookup_empty. by destruct (last _). }
  split; [by rewrite Hrun|]. split; [exact Hlook|]. split.
  - intros k. rewrite Hlook. intros Hk.
    apply fmap_Some in Hk as (r & Hlast & Hv).
    apply last_Some_elem_of, list_elem_of_filter in Hlast as [_ Hr].
    unfold listing in Hr. rewrite parse_yum_records in Hr.
    by eapply parse_lines_version_nonempty.
  - subst listing h1. unfold _parse_yum, run_stdout, refresh_db, retcode.
    unfold mbind, State_bind, mret, State_ret.
    destruct h as [w t].
    destruct (L.(config_is_true) refresh); cbn [fst snd world trace].
    + destruct (L.(cmd_retcode) _ w) as [rc w1]. cbn [fst snd world trace].
      destruct (L.(cmd_run_stdout) _ w1). cbn.
      by rewrite <- app_assoc.
    + by destruct (L.(cmd_run_stdout) _ w).
Qed.

End QueryFacts.

(** ** Strings *)

Section StringFacts.

Lemma append_assoc (a b c : string) : (a +:+ b) +:+ c = a +:+ (b +:+ c).
Proof.
  induction a as [|x a IH]; [done|]. rewrite !append_cons. by rewrite IH.
Qed.

Lemma length_append (a b : string) :
  String.length (a +:+ b) = String.length a + String.length b.
Proof.
  induction a as [|x a IH]; [done|]. rewrite append_cons. cbn. by rewrite IH.
Qed.

Lemma has_char_app (c : ascii) (a b : string) :
  Py.has_char c (a +:+ b) = Py.has_char c a || Py.has_char c b.
Proof.
  induction a as [|x a IH]; [done|].
  rewrite append_cons. cbn [Py.has_char]. by rewrite IH, orb_assoc.
Qed.

Lemma rev_app_append (s t : string) :
  String.rev_app s t = String.rev_app s EmptyString +:+ t.
Proof.
  revert t. induction s as [|c s IH]; intros t; [done|].
  cbn [String.rev_app]. rewrite (IH (String c t)), (IH (String c EmptyString)).
  by rewrite append_assoc.
Qed.

Lemma rev_app_rev_app (s t u : string) :
  String.rev_app (String.rev_app s t) u = String.rev_app t (s +:+ u).
Proof.
  revert t u. induction s as [|c s IH]; intros t u; [done|].
  cbn [String.rev_app]. by rewrite IH.
Qed.

Lemma rev_rev_app (s cur : string) :
  String.rev (String.rev_app s cur) = String.rev cur +:+ s.
Proof.
  unfold String.rev. rewrite rev_app_rev_app, append_empty_r.
  apply rev_app_append.
Qed.

Lemma rev_app_of_append (a b t : string) :
  String.rev_app (a +:+ b) t = String.rev_app b (String.rev_app a t).
Proof.
  revert t. induction a as [|c a IH]; intros t; [done|].
  rewrite append_cons. cbn [String.rev_app]. apply IH.
Qed.

Lemma rev_append (a b : string) :
  String.rev (a +:+ b) = String.rev b +:+ String.rev a.
Proof.
  unfold String.rev. rewrite rev_app_of_append. apply rev_app_append.
Qed.

Lemma prefix_empty (s : string) : String.prefix EmptyString s = true.
Proof. by destruct s. Qed.

Lemma prefix_append (p s : string) : String.prefix p (p +:+ s) = true.
Proof.
  induction p as [|c p IH]; [apply prefix_empty|].
  rewrite append_cons. cbn [String.prefix].
  by destruct (ascii_dec c c).
Qed.

Lemma substring_append (a b : string) :
  String.substring 0 (String.length a) (a +:+ b) = a.
Proof.
  induction a as [|c a IH]; [by destruct b|].
  rewrite append_cons. cbn. by rewrite IH.
Qed.

(** [(b + p).endswith(p)], and [(b + p)[:-len(p)]] is [b]. *)
Lemma endswith_append (p b : string) : Py.endswith p (b +:+ p) = true.
Proof. unfold Py.endswith. rewrite rev_append. apply prefix_append. Qed.

Lemma drop_last_append (p b : string) :
  Py.drop_last (String.length p) (b +:+ p) = b.
Proof.
  unfold Py.drop_last. rewrite length_append.
  replace (String.length b + String.length p - String.length p)
    with (String.length b) by lia.
  apply substring_append.
Qed.

End StringFacts.

(** ** Reading the lines of the package query *)

Section QueryLines.

(** A text without line end, a line feed and a rest: the first line is
    the text. *)
Lemma splitlines_go_line (line rest cur : string) :
  Py.has_char Py.CR line = false ->
  Py.has_char Py.LF line = false ->
  Py.splitlines_go cur (line +:+ String Py.LF rest)
  = (String.rev cur +:+ line) :: Py.splitlines rest.
Proof.
  revert cur. induction line as [|c line IH]; intros cur Hcr Hlf.
  - change (EmptyString +:+ String Py.LF rest) with (String Py.LF rest).
    by rewrite append_empty_r.
  - rewrite append_cons. cbn [Py.has_char] in Hcr, Hlf.
    apply orb_false_elim in Hcr as [Hc1 Hcr].
    apply orb_false_elim in Hlf as [Hc2 Hlf].
    cbn [Py.splitlines_go].
    rewrite Ascii.eqb_sym, Hc1, Ascii.eqb_sym, Hc2.
    rewrite IH by done.
    change (String.rev (String c cur)) with (String.rev_app cur (String c "")).
    rewrite rev_app_append, append_assoc. done.
Qed.

Lemma splitlines_lines (lines : list string) :
  Forall (fun line => Py.has_char Py.CR line = false
                      /\ Py.has_char Py.LF line = false) lines ->
  Py.splitlines
    (foldr (fun line text => line +:+ String Py.LF text) EmptyString lines)
  = lines.
Proof.
  induction 1 as [|line lines [Hcr Hlf] _ IH]; [done|].
  cbn [foldr]. unfold Py.splitlines at 1.
  rewrite splitlines_go_line by done. by rewrite IH.
Qed.

(** Inside a field without vertical bar no separator starts. *)
Lemma no_separator_in_field (c : ascii) (field rest : string) :
  Py.has_char "|" (String c field) = false ->
  String.prefix "_|-" (String c (field +:+ "_|-" +:+ rest)) = false
  /\ String.prefix "_|-" (String c field) = false.
Proof.
  cbn [Py.has_char]. intros [Hc Hf]%orb_false_elim.
  cbn [String.prefix]. destruct (ascii_dec "_" c) as [<-|]; [|by split].
  destruct field as [|c' field]; [split; reflexivity|].
  rewrite append_cons. cbn [Py.has_char] in Hf.
  apply orb_false_elim in Hf as [Hc' _]. apply Ascii.eqb_neq in Hc'.
  cbn [String.prefix]. by destruct (ascii_dec "|" c').
Qed.

Lemma split_sep_go_field (field rest cur : string) :
  Py.has_char "|" field = false ->
  Py.split_sep_go "_|-" 0 cur (field +:+ "_|-" +:+ rest)
  = (String.rev cur +:+ field) :: Py.split_sep_go "_|-" 0 EmptyString rest.
Proof.
  revert cur. induction field as [|c field IH]; intros cur Hbar.
  - change (EmptyString +:+ "_|-" +:+ rest)
      with (String "_" (String "|" (String "-" rest))).
    cbn [Py.split_sep_go String.length Nat.sub].
    change (String "_" (String "|" (String "-" rest))) with ("_|-" +:+ rest).
    by rewrite prefix_append, append_empty_r.
  - rewrite append_cons. cbn [Py.split_sep_go].
    rewrite (proj1 (no_separator_in_field c field rest Hbar)).
    cbn [Py.has_char] in Hbar. apply orb_false_elim in Hbar as [_ Hbar].
    rewrite IH by done.
    change (String.rev (String c cur)) with (String.rev_app cur (String c "")).
    by rewrite rev_app_append, append_assoc.
Qed.

Lemma split_sep_go_last (field cur : string) :
  Py.has_char "|" field = false ->
  Py.split_sep_go "_|-" 0 cur field = [String.rev cur +:+ field].
Proof.
  revert cur. induction field as [|c field IH]; intros cur Hbar.
  - by rewrite append_empty_r.
  - cbn [Py.split_sep_go].
    rewrite (proj2 (no_separator_in_field c field EmptyString Hbar)).
    cbn [Py.has_char] in Hbar. apply orb_false_elim in Hbar as [_ Hbar].
    rewrite IH by done.
    change (String.rev (String c cur)) with (String.rev_app cur (String c "")).
    by rewrite rev_app_append, append_assoc.
Qed.

(** Joining fields without vertical bar with the separator of the query
    and splitting at it gives the fields back. *)
Lemma split_sep_join (fields : list string) :
  fields <> [] ->
  Forall (fun field => Py.has_char "|" field = false) fields ->
  Py.split_sep "_|-" (Py.join "_|-" fields) = fields.
Proof.
  intros Hne Hall. unfold Py.split_sep.
  induction Hall as [|f fields Hf Hall IH]; [done|].
  destruct fields as [|g fields].
  - cbn [Py.join String.concat]. by rewrite split_sep_go_last.
  - change (Py.join "_|-" (f :: g :: fields))
      with (f +:+ "_|-" +:+ Py.join "_|-" (g :: fields)).
    rewrite split_sep_go_field by done. by rewrite IH.
Qed.

End QueryLines.

(** ** Further properties of the snapshot and of the operations *)

Section SnapshotFacts.

Context {W pkgs_t sources_t : Type}.
Variable L : loader W pkgs_t sources_t.

Lemma plain_fields (field : string) :
  plain field = true ->
  Py.has_char "|" field = false /\ Py.has_char Py.CR field = false
  /\ Py.has_char Py.LF field = false.
Proof.
  unfold plain. intros [[H1 H2]%andb_true_iff H3]%andb_true_iff.
  by rewrite !negb_true_iff in *.
Qed.

Lemma query_line_fields (pkg : string * string * string * string) :
  plain pkg.1.1.1 && plain pkg.1.1.2 && plain pkg.1.2 && plain pkg.2 = true ->
  Py.split_sep "_|-" (query_line pkg) = [pkg.1.1.1; pkg.1.1.2; pkg.1.2; pkg.2]
  /\ Py.has_char Py.CR (query_line pkg) = false
  /\ Py.has_char Py.LF (query_line pkg) = false.
Proof.
  destruct pkg as [[[n v] r] a]. cbn [fst snd].
  intros [[[Hn Hv]%andb_true_iff Hr]%andb_true_iff Ha]%andb_true_iff.
  apply plain_fields in Hn as (Hn1 & Hn2 & Hn3).
  apply plain_fields in Hv as (Hv1 & Hv2 & Hv3).
  apply plain_fields in Hr as (Hr1 & Hr2 & Hr3).
  apply plain_fields in Ha as (Ha1 & Ha2 & Ha3).
  split; [|split].
  - change (query_line (n, v, r, a)) with (Py.join "_|-" [n; v; r; a]).
    apply split_sep_join; [done|]. by repeat constructor.
  - unfold query_line. rewrite !has_char_app, Hn2, Hv2, Hr2, Ha2. done.
  - unfold query_line. rewrite !has_char_app, Hn3, Hv3, Hr3, Ha3. done.
Qed.

Lemma splitlines_query (pkgs : list (string * string * string * string)) :
  Forall (fun pkg => plain pkg.1.1.1 && plain pkg.1.1.2 && plain pkg.1.2
                     && plain pkg.2 = true) pkgs ->
  Py.splitlines
    (foldr (fun pkg text => query_line pkg +:+ String Py.LF text)
           EmptyString pkgs)
  = query_line <$> pkgs.
Proof.
  induction 1 as [|pkg pkgs Hpkg _ IH]; [done|].
  apply query_line_fields in Hpkg as (_ & Hcr & Hlf).
  cbn [foldr fmap list_fmap]. unfold Py.splitlines at 1.
  rewrite splitlines_go_line by done. by rewrite IH.
Qed.

Lemma list_pkgs_fold_query (pkgs : list (string * string * string * string))
    (acc : gmap string (list string)) :
  Forall (fun pkg => plain pkg.1.1.1 && plain pkg.1.1.2 && plain pkg.1.2
                     && plain pkg.2 = true) pkgs ->
  foldl (fun ret line =>
           match Py.split_sep "_|-" line with
           | [name; version; rel; arch] =>
               let name :=
                 if String.eqb (cpuarch L) "x86_64" && String.eqb arch "i686"
                 then name +:+ ".i686" else name in
               let pkgver :=
                 if negb (String.eqb rel EmptyString)
                 then version +:+ "-" +:+ rel else version in
               L.(pkg_resource_add_pkg) ret name pkgver
           | _ => ret
           end) acc (query_line <$> pkgs)
  = foldl (fun ret pkg =>
             L.(pkg_resource_add_pkg) ret
               (if String.eqb (cpuarch L) "x86_64" && String.eqb pkg.2 "i686"
                then pkg.1.1.1 +:+ ".i686" else pkg.1.1.1)
               (if negb (String.eqb pkg.1.2 EmptyString)
                then pkg.1.1.2 +:+ "-" +:+ pkg.1.2 else pkg.1.1.2))
          acc pkgs.
Proof.
  intros Hplain. revert acc.
  induction Hplain as [|pkg pkgs Hpkg _ IH]; intros acc; [done|].
  cbn [fmap list_fmap foldl]. rewrite IH.
  apply query_line_fields in Hpkg as (Hs & _ & _). by rewrite Hs.
Qed.

(** X15: [list_pkgs] reads back what the query prints: when the output of the
    query is one line per package, built from a name, a version, a release
    and an architecture that hold no vertical bar and no line end, the
    snapshot is made from the entries of these packages in order: the name,
    with [.i686] appended for an i686 package on an x86_64 machine, and
    the version, followed by a dash and the release when there is a
    release. One command runs, the query. *)
Theorem list_pkgs_reads_query (versions_as_list : pyval) (h : host W)
    (pkgs : list (string * string * string * string)) :
  let answer := L.(cmd_run) (rpm_query) (world h) in
  let entry (pkg : string * string * string * string) :=
    (if String.eqb (cpuarch L) "x86_64" && String.eqb pkg.2 "i686"
     then pkg.1.1.1 +:+ ".i686" else pkg.1.1.1,
     if negb (String.eqb pkg.1.2 EmptyString)
     then pkg.1.1.2 +:+ "-" +:+ pkg.1.2 else pkg.1.1.2) in
  let ret :=
    L.(pkg_resource_sort_pkglist)
      (foldl (fun ret pkg =>
                L.(pkg_resource_add_pkg) ret (entry pkg).1 (entry pkg).2)
             ∅ pkgs) in
  Forall (fun pkg => plain pkg.1.1.1 && plain pkg.1.1.2 && plain pkg.1.2
                     && plain pkg.2 = true) pkgs ->
  answer.1 = foldr (fun pkg text => query_line pkg +:+ String Py.LF text)
                   EmptyString pkgs ->
  list_pkgs L versions_as_list h
  = (if negb (L.(config_is_true) versions_as_list)
     then PyStr <$> L.(pkg_resource_stringify) ret
     else PyList <$> ret,
     Host answer.2 (trace h ++ [Run rpm_query])).
Proof.
  intros answer entry ret Hplain Hout.
  unfold list_pkgs, run, mbind, State_bind, mret, State_ret.
  fold answer. destruct answer as [out w]. cbn [fst snd] in *.
  rewrite Hout, splitlines_query by done.
  rewrite list_pkgs_fold_query by done. fold entry. fold ret.
  by destruct (negb (L.(config_is_true) versions_as_list)).
Qed.

(** The values of a snapshot are all strings when [versions_as_list] is
    false and all lists when it is true. *)
Theorem list_pkgs_values (versions_as_list : pyval) (h : host W) :
  map_Forall
    (fun _ v => if L.(config_is_true) versions_as_list
                then exists l, v = PyList l
                else exists s, v = PyStr s)
    (list_pkgs L versions_as_list h).1.
Proof.
  unfold list_pkgs, run, mbind, State_bind, mret, State_ret.
  destruct (L.(cmd_run) _ (world h)) as [out w].
  destruct (L.(config_is_true) versions_as_list); cbn [negb fst];
    intros k v [x [<- _]]%lookup_fmap_Some; by eexists.
Qed.

End SnapshotFacts.

Section OperationFacts.

Context {W pkgs_t sources_t : Type}.
Variable L : loader W pkgs_t sources_t.

Lemma retcode_trace (cmd : string) (h : host W) :
  trace (retcode L cmd h).2 = trace h ++ [Run cmd].
Proof. unfold retcode. by destruct (L.(cmd_retcode) cmd (world h)). Qed.

Lemma refresh_trace (refresh : pyval) (h : host W) :
  trace ((if L.(config_is_true) refresh then refresh_db L
          else mret true) h).2
  = trace h ++ (if L.(config_is_true) refresh
                then [Run "yum -q clean dbcache"] else []).
Proof.
  destruct (L.(config_is_true) refresh).
  - unfold refresh_db, mbind, State_bind.
    pose proof (retcode_trace "yum -q clean dbcache" h) as Hrc.
    by destruct (retcode L "yum -q clean dbcache" h).
  - cbn. by rewrite app_nil_r.
Qed.

(** X16: [remove] takes a snapshot, runs the removal of the package and takes
    a second snapshot: three commands in this order, whatever the removal
    answers. Every name it returns was a key of the first snapshot and is
    no key of the second. *)
Theorem remove_commands (pkg : string) (kwargs : gmap string pyval)
    (h : host W) :
  let before := list_pkgs L (PyBool false) h in
  let cmd := "yum -q -y remove " +:+ quoted pkg in
  let after := list_pkgs L (PyBool false) (retcode L cmd before.2).2 in
  remove L pkg kwargs h = (_list_removed before.1 after.1, after.2)
  /\ trace after.2 = trace h ++ [Run rpm_query; Run cmd; Run rpm_query]
  /\ Forall (fun k => is_Some (before.1 !! k) /\ after.1 !! k = None)
            (remove L pkg kwargs h).1.
Proof.
  intros before cmd after.
  assert (Hrun : remove L pkg kwargs h
                 = (_list_removed before.1 after.1, after.2)).
  { subst after before cmd. unfold remove. by run_state. }
  split; [exact Hrun|]. split.
  - unfold after. rewrite list_pkgs_trace, retcode_trace.
    unfold before. rewrite list_pkgs_trace. by rewrite <- !app_assoc.
  - rewrite Hrun. cbn [fst]. apply Forall_forall. intros k Hk.
    by apply list_removed_elem.
Qed.

(** X17: [upgrade] runs the cache clean when [refresh] is true, then the
    query, the upgrade and the query again, in this order. *)
Theorem upgrade_commands (refresh : pyval) (h : host W) :
  trace (upgrade L refresh h).2
  = trace h
    ++ (if L.(config_is_true) refresh then [Run "yum -q clean dbcache"]
        else [])
    ++ [Run rpm_query; Run "yum -q -y upgrade"; Run rpm_query].
Proof.
  unfold upgrade. unfold mbind at 1, State_bind at 1.
  pose proof (refresh_trace refresh h) as H1.
  destruct ((if L.(config_is_true) refresh then refresh_db L
             else mret true) h) as [b h1]. cbn [snd] in H1.
  unfold mbind, State_bind, mret, State_ret.
  pose proof (list_pkgs_trace L (PyBool false) h1) as H2.
  destruct (list_pkgs L (PyBool false) h1) as [o h2]. cbn [snd] in H2.
  pose proof (retcode_trace "yum -q -y upgrade" h2) as H3.
  destruct (retcode L "yum -q -y upgrade" h2) as [rc h3]. cbn [snd] in H3.
  pose proof (list_pkgs_trace L (PyBool false) h3) as H4.
  destruct (list_pkgs L (PyBool false) h3) as [n h4]. cbn [snd] in *.
  by rewrite H4, H3, H2, H1, <- !app_assoc.
Qed.

(** X18: An install without target does nothing: when the resolution of the
    targets yields none, [install] returns the empty dict and has run no
    command but the cache clean, which runs when [refresh] is true. *)
Theorem install_without_targets (name : string)
    (refresh fromrepo skip_verify : pyval) (pkgs : option pkgs_t)
    (sources : option sources_t) (kwargs : gmap string pyval) (h : host W) :
  let h1 := ((if L.(config_is_true) refresh then refresh_db L
              else mret true) h).2 in
  let resolved := parse_targets L name pkgs sources h1 in
  match unpack resolved.1 with
  | None => True
  | Some (pkg_params, _) => params_len pkg_params = 0
  end ->
  install L name refresh fromrepo skip_verify pkgs sources kwargs h
  = (Some ∅, resolved.2)
  /\ trace resolved.2
     = trace h ++ (if L.(config_is_true) refresh
                   then [Run "yum -q clean dbcache"] else []).
Proof.
  intros h1 resolved Hnone. split.
  - unfold install. unfold mbind at 1 2, State_bind at 1 2.
    subst resolved h1.
    destruct ((if L.(config_is_true) refresh then refresh_db L
               else mret true) h) as [b hr]. cbn [snd] in *.
    destruct (parse_targets L name pkgs sources hr) as [r hp].
    cbn [fst snd] in *.
    destruct (unpack r) as [[p ty]|]; [|done].
    by rewrite bool_decide_eq_true_2.
  - subst resolved. unfold parse_targets.
    destruct (L.(pkg_resource_parse_targets) _ _ _ _) as [r w].
    cbn [snd trace]. subst h1. apply refresh_trace.
Qed.

(** X19: An install of package files compares no version: all the files are
    in the install bucket, whatever is installed, and between the two
    snapshots one install command runs for them and no downgrade
    command. *)
Theorem install_files (fromrepo skip_verify : pyval)
    (kwargs : gmap string pyval) (files : list string) (h : host W) :
  let options := _get_repo_options L (<["fromrepo" := fromrepo]> kwargs) h in
  let before := list_pkgs L (PyBool false) options.2 in
  (forall old, install_buckets L old "file" (PList files) = Some (files, []))
  /\ trace (install_rest L "file" fromrepo skip_verify kwargs
                         (PList files) h).2
     = trace before.2
       ++ (if bool_decide (files <> [])
           then [Run (yum_command options.1 skip_verify "install" files)]
           else [])
       ++ [Run rpm_query].
Proof.
  intros options before. split; [done|].
  unfold install_rest, mbind, State_bind.
  fold options. destruct options as [repo_arg h1]. cbn [fst snd] in *.
  fold before. destruct before as [old h2]. cbn [fst snd] in *.
  change (install_buckets L old "file" (PList files))
    with (Some (files, @nil string)).
  cbv beta iota.
  pose proof (install_run_trace L repo_arg skip_verify files [] h2) as Hrun.
  destruct (install_run L repo_arg skip_verify files [] h2) as [[] h3].
  pose proof (list_pkgs_trace L (PyBool false) h3) as Hnew.
  destruct (list_pkgs L (PyBool false) h3) as [new h4].
  cbn [fst snd mret State_ret] in *.
  rewrite Hnew, Hrun. rewrite (bool_decide_eq_false_2 (@nil string <> []))
    by (intros Hn; by apply Hn).
  by rewrite app_nil_r, <- !app_assoc.
Qed.

(** X20: No target of a repository is lost or doubled by the two buckets: the
    buckets together are the targets, each once, so that their lengths add
    up to the number of targets; a target without version is in the
    install bucket. *)
Theorem install_buckets_cover (old d : gmap string pyval) :
  exists targets downgrade : list string,
    install_buckets L old "repository" (PDict d) = Some (targets, downgrade)
    /\ targets ++ downgrade
       ≡ₚ (fun kv => if bool_decide (kv.2 = PyNone) then kv.1
                     else pkgstr L kv.1 kv.2) <$> map_to_list d
    /\ length targets + length downgrade = size d
    /\ (forall k, d !! k = Some PyNone -> k ∈ targets).
Proof.
  pose proof (install_targets_step L old (map_to_list d) [] []) as Hstep.
  cbv zeta in Hstep. rewrite !app_nil_l in Hstep.
  set (installs := fun kv : string * pyval =>
         bool_decide (kv.2 = PyNone)
         || negb (truthy (dict_get old kv.1 (PyStr EmptyString)))
         || compare L kv.2 ">=" (dict_get old kv.1 (PyStr EmptyString)))
    in *.
  set (spec := fun kv : string * pyval =>
         if bool_decide (kv.2 = PyNone) then kv.1 else pkgstr L kv.1 kv.2).
  eexists _, _. split.
  { unfold install_buckets. cbn [String.eqb Ascii.eqb Bool.eqb iteritems].
    cbn [mbind option_bind]. by rewrite Hstep. }
  assert (Hdown :
    (fun kv => pkgstr L kv.1 kv.2)
      <$> filter (fun kv => installs kv = false) (map_to_list d)
    = spec <$> filter (fun kv => ~ installs kv = true) (map_to_list d)).
  { rewrite (list_filter_iff (fun kv => installs kv = false)
               (fun kv => ~ installs kv = true) (map_to_list d))
      by (intros kv; by destruct (installs kv)).
    apply list_fmap_ext. intros i kv Hkv.
    apply list_elem_of_lookup_2, list_elem_of_filter in Hkv as [Hkv _].
    unfold spec. unfold installs in Hkv.
    by destruct (bool_decide (kv.2 = PyNone)). }
  assert (Hperm :
    (spec <$> filter (fun kv => installs kv = true) (map_to_list d))
    ++ ((fun kv => pkgstr L kv.1 kv.2)
          <$> filter (fun kv => installs kv = false) (map_to_list d))
    ≡ₚ spec <$> map_to_list d).
  { rewrite Hdown, <- fmap_app. by rewrite filter_app_complement. }
  split; [exact Hperm|]. split.
  - rewrite <- length_app.
    erewrite Permutation_length; [|exact Hperm].
    rewrite length_fmap. apply length_map_to_list.
  - intros k Hk. apply list_elem_of_fmap. exists (k, PyNone).
    split; [done|]. apply list_elem_of_filter. split; [done|].
    by apply elem_of_map_to_list.
Qed.

(** X21: The spec of a target with a version keeps the architecture behind
    the version: on an x86_64 machine the target [base.i686] at a version
    is written [base-version.i686]; on another machine, or for a name that
    does not end in [.i686], the target is written [name-version]. *)
Theorem pkgstr_architecture (base name : string) (version : pyval) :
  (cpuarch L = "x86_64" ->
   pkgstr L (base +:+ ".i686") version
   = quoted (base +:+ "-" +:+ pystr L version +:+ ".i686"))
  /\ (cpuarch L <> "x86_64" \/ Py.endswith ".i686" name = false ->
      pkgstr L name version = quoted (name +:+ "-" +:+ pystr L version)).
Proof.
  split.
  - intros Harch. unfold pkgstr. rewrite Harch, endswith_append.
    cbn [String.eqb Ascii.eqb Bool.eqb andb].
    pose proof (drop_last_append ".i686" base) as Hdrop.
    cbn [String.length] in Hdrop. by rewrite Hdrop.
  - intros Hor. unfold pkgstr.
    assert (String.eqb (cpuarch L) "x86_64" && Py.endswith ".i686" name
            = false) as ->.
    { destruct Hor as [Hne| ->]; [|by rewrite andb_false_r].
      apply String.eqb_neq in Hne. by rewrite Hne. }
    by rewrite append_empty_r.
Qed.

End OperationFacts.

(** ** Properties of __virtual__ *)

Section VirtualFacts.

Context {W pkgs_t sources_t : Type}.
Variable L : loader W pkgs_t sources_t.
Variable py_int : string -> option Z.

Lemma split_dot_go_field (field rest cur : string) :
  Py.has_char "." field = false ->
  Py.split_sep_go "." 0 cur (field +:+ "." +:+ rest)
  = (String.rev cur +:+ field) :: Py.split_sep_go "." 0 EmptyString rest.
Proof.
  revert cur. induction field as [|c field IH]; intros cur Hdot.
  - change (EmptyString +:+ "." +:+ rest) with (String "." rest).
    cbn [Py.split_sep_go String.length Nat.sub].
    change (String "." rest) with ("." +:+ rest).
    by rewrite prefix_append, append_empty_r.
  - rewrite append_cons. cbn [Py.has_char] in Hdot.
    apply orb_false_elim in Hdot as [Hc Hdot]. apply Ascii.eqb_neq in Hc.
    cbn [Py.split_sep_go String.prefix].
    destruct (ascii_dec "." c) as [|_]; [done|].
    rewrite IH by done.
    change (String.rev (String c cur)) with (String.rev_app cur (String c "")).
    by rewrite rev_app_append, append_assoc.
Qed.

Lemma split_dot_go_last (field cur : string) :
  Py.has_char "." field = false ->
  Py.split_sep_go "." 0 cur field = [String.rev cur +:+ field].
Proof.
  revert cur. induction field as [|c field IH]; intros cur Hdot.
  - by rewrite append_empty_r.
  - cbn [Py.has_char] in Hdot.
    apply orb_false_elim in Hdot as [Hc Hdot]. apply Ascii.eqb_neq in Hc.
    cbn [Py.split_sep_go String.prefix].
    destruct (ascii_dec "." c) as [|_]; [done|].
    rewrite IH by done.
    change (String.rev (String c cur)) with (String.rev_app cur (String c "")).
    by rewrite rev_app_append, append_assoc.
Qed.

(** X23: [__virtual__] answers ['pkg'] or [False], and ['pkg'] exactly when the
    three grains are there, the text before the first dot of the release
    is a number, and the machine is a Fedora below 11 or of the RedHat
    family at 5 or below. A missing grain or a release that is no number
    gives [False]. *)
Theorem virtual_decision :
  (__virtual__ L py_int = PyStr "pkg" <->
   exists os os_family osrelease major,
     L.(grains) !! "os" = Some os
     /\ L.(grains) !! "os_family" = Some os_family
     /\ L.(grains) !! "osrelease" = Some osrelease
     /\ py_int (default EmptyString (head (Py.split_sep "." osrelease)))
        = Some major
     /\ ((os = "Fedora" /\ (major < 11)%Z)
         \/ (os_family = "RedHat" /\ (major <= 5)%Z)))
  /\ (__virtual__ L py_int = PyStr "pkg"
      \/ __virtual__ L py_int = PyBool false).
Proof.
  unfold __virtual__, os_facts.
  destruct (L.(grains) !! "os") as [os|]; cbn [mbind option_bind];
    [|split; [split; [done|by intros (?&?&?&?&?&_)]|by right]].
  destruct (L.(grains) !! "os_family") as [fam|]; cbn [mbind option_bind];
    [|split; [split; [done|by intros (?&?&?&?&_&?&_)]|by right]].
  destruct (L.(grains) !! "osrelease") as [rel|]; cbn [mbind option_bind];
    [|split; [split; [done|by intros (?&?&?&?&_&_&?&_)]|by right]].
  destruct (py_int _) as [m|] eqn:Hm; cbn [mbind option_bind];
    [|split; [split; [done|by intros (?&?&?&?&_&_&[= <-]&?&_); congruence]
             |by right]].
  destruct (String.eqb os "Fedora") eqn:Hos;
    destruct (m <? 11)%Z eqn:H11; cbn [andb];
    try (destruct (String.eqb fam "RedHat") eqn:Hfam;
         destruct (m <=? 5)%Z eqn:H5; cbn [andb]);
    rewrite ?String.eqb_eq, ?String.eqb_neq, ?Z.ltb_lt, ?Z.ltb_ge,
      ?Z.leb_le, ?Z.leb_gt in *;
    (split; [split|]);
    try (by left); try (by right); try done;
    try (intros _; exists os, fam, rel, m; repeat split; try done;
         (by left) || (by right));
    intros (os' & fam' & rel' & m' & [= <-] & [= <-] & [= <-] & Hm' & Hcase);
    rewrite Hm in Hm'; injection Hm' as <-;
    destruct Hcase as [[? ?]|[? ?]]; (congruence || lia).
Qed.

(** X24: The major release is the text before the first dot: with a release
    [major.rest], or a release without dot, the answer depends on the
    number that [major] reads as and on the two other grains. *)
Theorem virtual_major_version (os os_family major rest : string)
    (osrelease : string) :
  L.(grains) !! "os" = Some os ->
  L.(grains) !! "os_family" = Some os_family ->
  L.(grains) !! "osrelease" = Some osrelease ->
  Py.has_char "." major = false ->
  osrelease = major +:+ "." +:+ rest \/ osrelease = major ->
  __virtual__ L py_int
  = match py_int major with
    | Some m =>
        if (String.eqb os "Fedora" && (m <? 11)%Z)
           || (String.eqb os_family "RedHat" && (m <=? 5)%Z)
        then PyStr "pkg" else PyBool false
    | None => PyBool false
    end.
Proof.
  intros Hos Hfam Hrel Hdot Hshape.
  assert (Hhead : default EmptyString (head (Py.split_sep "." osrelease))
                  = major).
  { unfold Py.split_sep. destruct Hshape as [-> | ->].
    - by rewrite split_dot_go_field.
    - by rewrite split_dot_go_last. }
  unfold __virtual__, os_facts. rewrite Hos, Hfam, Hrel.
  cbn [mbind option_bind]. rewrite Hhead.
  destruct (py_int major) as [m|]; cbn [mbind option_bind]; [|done].
  by destruct (String.eqb os "Fedora" && (m <? 11)%Z).
Qed.

End VirtualFacts.

(** ** Witnesses of the further properties *)

Lemma latest_version_reads_repo_options_witness :
  latest_version (Demo.L "x86_64") ["foo"]
                 {["repo" := PyStr "epel"; "version" := PyStr "1.0"]}
  = latest_version (Demo.L "x86_64") ["foo"] {["repo" := PyStr "epel"]}.
Proof.
  apply (latest_version_reads_repo_options (Demo.L "x86_64") ["foo"]
           {["repo" := PyStr "epel"; "version" := PyStr "1.0"]}
           {["repo" := PyStr "epel"]}).
  intros k Hk.
  repeat (apply elem_of_cons in Hk as [->|Hk]; [reflexivity|]).
  by apply elem_of_nil in Hk.
Defined.

Lemma list_pkgs_reads_query_witness :
  (list_pkgs (Demo.L "x86_64") (PyBool false) Demo.start).1
  = {["foo" := PyStr "2.0-1"; "bar.i686" := PyStr "1.0"]}.
Proof.
  rewrite (list_pkgs_reads_query (Demo.L "x86_64") (PyBool false) Demo.start
             [("foo", "2.0", "1", "x86_64"); ("bar", "1.0", EmptyString, "i686")]).
  - vm_compute. reflexivity.
  - repeat constructor.
  - reflexivity.
Defined.

Lemma install_without_targets_witness :
  install (Demo.L "x86_64") EmptyString (PyBool true) PyNone (PyBool false)
          (Some ∅) None ∅ Demo.start
  = (Some ∅, Host (world Demo.start) [Run "yum -q clean dbcache"]).
Proof.
  apply (install_without_targets (Demo.L "x86_64") EmptyString (PyBool true)
           PyNone (PyBool false) (Some ∅) None ∅ Demo.start).
  exact I.
Defined.

Lemma pkgstr_architecture_witness :
  pkgstr (Demo.L "x86_64") ("glibc" +:+ ".i686") (PyStr "2.5-1")
  = quoted ("glibc" +:+ "-" +:+ "2.5-1" +:+ ".i686")
  /\ pkgstr (Demo.L "ppc") "glibc.i686" (PyStr "2.5-1")
     = quoted ("glibc.i686" +:+ "-" +:+ "2.5-1").
Proof.
  split.
  - apply (proj1 (pkgstr_architecture (Demo.L "x86_64") "glibc" "glibc"
                    (PyStr "2.5-1"))).
    reflexivity.
  - apply (proj2 (pkgstr_architecture (Demo.L "ppc") "glibc" "glibc.i686"
                    (PyStr "2.5-1"))).
    left. discriminate.
Defined.

Lemma virtual_major_version_witness :
  __virtual__ (DemoInt.machine "CentOS" "RedHat" "5.8") DemoInt.int
  = PyStr "pkg"
  /\ __virtual__ (DemoInt.machine "Fedora" "RedHat" "11") DemoInt.int
     = PyBool false.
Proof.
  split.
  - apply (virtual_major_version (DemoInt.machine "CentOS" "RedHat" "5.8")
             DemoInt.int "CentOS" "RedHat" "5" "8" "5.8");
      try reflexivity. by left.
  - apply (virtual_major_version (DemoInt.machine "Fedora" "RedHat" "11")
             DemoInt.int "Fedora" "RedHat" "11" EmptyString "11");
      try reflexivity. by right.
Defined.

Section InstallFacts.

Context {W pkgs_t sources_t : Type}.
Variable L : loader W pkgs_t sources_t.

Lemma filter_all {A : Type} (P : A -> Prop) `{!forall x, Decision (P x)}
    (l : list A) :
  (forall x, x ∈ l -> P x) -> filter P l = l.
Proof.
  induction l as [|x l IH]; intros Hl; [done|].
  rewrite filter_cons_True by (apply Hl; by left).
  f_equal. apply IH. intros y Hy. apply Hl. by right.
Qed.

(** X22: Nothing is downgraded on a machine that has none of the targets: when
    no target of a repository is a key of the snapshot, every target is in
    the install bucket, in the order of the targets, and the downgrade
    bucket is empty, whatever the comparator says. *)
Theorem install_not_installed (old d : gmap string pyval) :
  (forall k, is_Some (d !! k) -> old !! k = None) ->
  install_buckets L old "repository" (PDict d)
  = Some ((fun kv => if bool_decide (kv.2 = PyNone) then kv.1
                     else pkgstr L kv.1 kv.2) <$> map_to_list d,
          []).
Proof.
  intros Hfresh.
  pose proof (install_targets_step L old (map_to_list d) [] []) as Hstep.
  cbv zeta in Hstep. rewrite !app_nil_l in Hstep.
  unfold install_buckets. cbn [String.eqb Ascii.eqb Bool.eqb iteritems].
  cbn [mbind option_bind]. rewrite Hstep.
  assert (Hall : forall kv, kv ∈ map_to_list d ->
            bool_decide (kv.2 = PyNone)
            || negb (truthy (dict_get old kv.1 (PyStr EmptyString)))
            || compare L kv.2 ">=" (dict_get old kv.1 (PyStr EmptyString))
            = true).
  { intros [k v] Hkv%elem_of_map_to_list. cbn [fst snd].
    unfold dict_get. rewrite (Hfresh k) by (by eexists). cbn.
    by rewrite orb_true_r. }
  rewrite filter_all by exact Hall.
  rewrite filter_none; [done|].
  intros kv Hkv. by rewrite (Hall kv Hkv).
Qed.

End InstallFacts.

Lemma install_not_installed_witness :
  install_buckets (Demo.L "x86_64") {["bar" := PyStr "9.9"]} "repository"
                  (PDict {["foo" := PyStr "0.1"]})
  = Some ([quoted "foo-0.1"], []).
Proof.
  rewrite (install_not_installed (Demo.L "x86_64") {["bar" := PyStr "9.9"]}
             {["foo" := PyStr "0.1"]}).
  - reflexivity.
  - intros k [v Hk]. apply lookup_singleton_Some in Hk as [<- _].
    reflexivity.
Defined.
